(** * Webflow MCP server: tool dispatch, validation and request building

    A shallow embedding of [src/index.ts]: the zod schemas, the [WebflowAPI]
    adapter, the tool catalogue and the call-tool handler with its
    [try]/[catch], followed by the properties of the specification.

    Modelling conventions.
    - JavaScript values are [JsValue]; objects used as maps are
      [gmap string JsValue] (key order is not observed by any property here).
    - Numbers are represented by their integer value ([Z]); [limit], [offset]
      and the HTTP status are the only numbers the program formats.
    - Strings are byte strings; [toLowerCase] and the regular expression of
      the slug are exact on ASCII text.
    - The network, [JSON.stringify] and the [message] getter of the SDK's
      [McpError] are parameters of the handler. *)

From Stdlib Require Import ZArith String Ascii List Bool.
From stdpp Require Import base option gmap strings list fin_maps pretty.

Set Warnings "-register-all".

Local Open Scope string_scope.
Local Open Scope Z_scope.

(** ** JavaScript values *)

Inductive JsValue : Type :=
| JUndefined
| JNull
| JBool (b : bool)
| JNum (n : Z)
| JStr (s : string)
| JArr (l : list JsValue)
| JObj (o : gmap string JsValue).

(** Template literals on a number: [`${n}`]. Exact on the safe integers,
    which JavaScript prints as their plain decimal numeral. *)
Definition numToString (n : Z) : string := pretty n.

(** [Array.prototype.join] on strings. *)
Fixpoint join (sep : string) (l : list string) : string :=
  match l with
  | [] => ""
  | [x] => x
  | x :: rest => x ++ sep ++ join sep rest
  end.

(** [s.includes(t)]: [t] occurs in [s]. *)
Definition includes (s t : string) : Prop :=
  exists pre post, s = pre ++ t ++ post.

(** JavaScript truthiness of an optional string: [undefined] and [""] are
    falsy. *)
Definition truthy (o : option string) : bool :=
  match o with
  | Some s => negb (String.eqb s "")
  | None => false
  end.

(** ** The slug of a name: [name.toLowerCase().replace(/[^a-z0-9]+/g, '-')] *)

Definition lower_char (c : ascii) : ascii :=
  let n := nat_of_ascii c in
  if ((65 <=? n) && (n <=? 90))%nat then ascii_of_nat (n + 32) else c.

Fixpoint toLowerCase (s : string) : string :=
  match s with
  | EmptyString => EmptyString
  | String c s' => String (lower_char c) (toLowerCase s')
  end.

(** The character class [[a-z0-9]]. *)
Definition is_slug_char (c : ascii) : bool :=
  let n := nat_of_ascii c in
  (((97 <=? n) && (n <=? 122)) || ((48 <=? n) && (n <=? 57)))%nat.

(** Global replacement of every maximal run matching [[^a-z0-9]+] by one
    hyphen. [in_run] tells that the previous character already belonged to
    the run being replaced. *)
Fixpoint replace_runs (in_run : bool) (s : string) : string :=
  match s with
  | EmptyString => EmptyString
  | String c s' =>
      if is_slug_char c then String c (replace_runs false s')
      else if in_run then replace_runs true s'
      else String "-"%char (replace_runs true s')
  end.

Definition slugify (name : string) : string :=
  replace_runs false (toLowerCase name).

(** ** zod: issues, results and the schema combinators used by the program *)

Inductive PathElem : Type :=
| PKey (k : string)
| PIdx (i : nat).

Definition path_elem_str (p : PathElem) : string :=
  match p with
  | PKey k => k
  | PIdx i => pretty i
  end.

Record ZodIssue : Type := mkIssue {
  issue_path : list PathElem;
  issue_message : string
}.

(** [ZodParsedType] of a value, as printed in messages. *)
Definition parsed_type (v : JsValue) : string :=
  match v with
  | JUndefined => "undefined"
  | JNull => "null"
  | JBool _ => "boolean"
  | JNum _ => "number"
  | JStr _ => "string"
  | JArr _ => "array"
  | JObj _ => "object"
  end.

(** The default error map for [invalid_type]. *)
Definition invalid_type (path : list PathElem) (expected : string) (v : JsValue) : ZodIssue :=
  mkIssue path
    match v with
    | JUndefined => "Required"
    | _ => "Expected " ++ expected ++ ", received " ++ parsed_type v
    end.

(** A parse either collects issues or yields the typed output. *)
Definition ParseResult (A : Type) : Type := (list ZodIssue + A)%type.

Definition ZodType (A : Type) : Type := list PathElem -> JsValue -> ParseResult A.

Definition z_string : ZodType string := fun path v =>
  match v with
  | JStr s => inr s
  | _ => inl [invalid_type path "string" v]
  end.

Definition z_number : ZodType Z := fun path v =>
  match v with
  | JNum n => inr n
  | _ => inl [invalid_type path "number" v]
  end.

Definition z_boolean : ZodType bool := fun path v =>
  match v with
  | JBool b => inr b
  | _ => inl [invalid_type path "boolean" v]
  end.

(** [t.optional()]: [undefined] is accepted and stays absent. *)
Definition z_optional {A} (t : ZodType A) : ZodType (option A) := fun path v =>
  match v with
  | JUndefined => inr None
  | _ => match t path v with
         | inr a => inr (Some a)
         | inl e => inl e
         end
  end.

(** [t.optional().default(d)]: [undefined] is replaced by [d]; any other
    input goes to the inner type. *)
Definition z_default {A} (t : ZodType (option A)) (d : A) : ZodType A := fun path v =>
  match v with
  | JUndefined => inr d
  | _ => match t path v with
         | inr (Some a) => inr a
         | inr None => inr d
         | inl e => inl e
         end
  end.

(** [z.record(z.any())]: any plain object; every value is accepted as it
    is. The result is a fresh object, which never owns a ["__proto__"]
    key. *)
Definition z_record_any : ZodType (gmap string JsValue) := fun path v =>
  match v with
  | JObj o => inr (delete "__proto__" o)
  | _ => inl [invalid_type path "object" v]
  end.

(** Issues of all elements are collected, in order. *)
Fixpoint parse_elems {A} (t : ZodType A) (path : list PathElem) (i : nat)
    (l : list JsValue) : ParseResult (list A) :=
  match l with
  | [] => inr []
  | x :: rest =>
      match t (path ++ [PIdx i])%list x, parse_elems t path (S i) rest with
      | inr a, inr r => inr (a :: r)
      | inl e, inr _ => inl e
      | inr _, inl e => inl e
      | inl e1, inl e2 => inl (e1 ++ e2)%list
      end
  end.

Definition z_array {A} (t : ZodType A) : ZodType (list A) := fun path v =>
  match v with
  | JArr l => parse_elems t path 0%nat l
  | _ => inl [invalid_type path "array" v]
  end.

(** Fields of a [z.object]: a field parser reads its key from the input
    object (an absent key reads as [undefined]) and extends the path. *)
Definition FieldParser (A : Type) : Type :=
  gmap string JsValue -> list PathElem -> ParseResult A.

Definition field {A} (k : string) (t : ZodType A) : FieldParser A := fun o path =>
  t (path ++ [PKey k])%list (default JUndefined (o !! k)).

Definition fpure {A} (a : A) : FieldParser A := fun _ _ => inr a.

(** Every field is parsed; the issues of all failing fields are kept, in
    the order of the shape. *)
Definition fap {A B} (f : FieldParser (A -> B)) (x : FieldParser A) : FieldParser B :=
  fun o path =>
    match f o path, x o path with
    | inr g, inr a => inr (g a)
    | inl e, inr _ => inl e
    | inr _, inl e => inl e
    | inl e1, inl e2 => inl (e1 ++ e2)%list
    end.

Notation "f <*> x" := (fap f x) (at level 50, left associativity).

(** [z.object(shape)]: the input must be an object; unknown keys are
    stripped. *)
Definition z_object {A} (shape : FieldParser A) : ZodType A := fun path v =>
  match v with
  | JObj o => shape o path
  | _ => inl [invalid_type path "object" v]
  end.

(** [schema.parse(args)]: throws the [ZodError] or returns the output. *)
Definition parse {A} (schema : ZodType A) (args : JsValue) : ParseResult A :=
  schema [] args.

(** ** The schemas of the program and their inferred parameter types *)

Module Site.
Record t : Type := mk { siteId : string }.
End Site.

Module Items.
Record t : Type := mk { collectionId : string; limit : Z; offset : Z }.
End Items.

Module Create.
Record t : Type := mk {
  collectionId : string;
  name : string;
  slug : option string;
  fieldData : option (gmap string JsValue);
  isDraft : bool;
  isArchived : bool
}.
End Create.

Module Update.
Record t : Type := mk {
  collectionId : string;
  itemId : string;
  name : option string;
  slug : option string;
  fieldData : option (gmap string JsValue);
  isDraft : option bool;
  isArchived : option bool
}.
End Update.

Module ItemRef.
Record t : Type := mk { collectionId : string; itemId : string }.
End ItemRef.

Module Publish.
Record t : Type := mk { collectionId : string; itemIds : list string }.
End Publish.

Definition GetSiteSchema : ZodType Site.t :=
  z_object (fpure Site.mk <*> field "siteId" z_string).

Definition GetCollectionsSchema : ZodType Site.t :=
  z_object (fpure Site.mk <*> field "siteId" z_string).

Definition CreateCollectionItemSchema : ZodType Create.t :=
  z_object (fpure Create.mk
    <*> field "collectionId" z_string
    <*> field "name" z_string
    <*> field "slug" (z_optional z_string)
    <*> field "fieldData" (z_optional z_record_any)
    <*> field "isDraft" (z_default (z_optional z_boolean) false)
    <*> field "isArchived" (z_default (z_optional z_boolean) false)).

Definition UpdateCollectionItemSchema : ZodType Update.t :=
  z_object (fpure Update.mk
    <*> field "collectionId" z_string
    <*> field "itemId" z_string
    <*> field "name" (z_optional z_string)
    <*> field "slug" (z_optional z_string)
    <*> field "fieldData" (z_optional z_record_any)
    <*> field "isDraft" (z_optional z_boolean)
    <*> field "isArchived" (z_optional z_boolean)).

Definition DeleteCollectionItemSchema : ZodType ItemRef.t :=
  z_object (fpure ItemRef.mk
    <*> field "collectionId" z_string
    <*> field "itemId" z_string).

Definition GetCollectionItemsSchema : ZodType Items.t :=
  z_object (fpure Items.mk
    <*> field "collectionId" z_string
    <*> field "limit" (z_default (z_optional z_number) 10)
    <*> field "offset" (z_default (z_optional z_number) 0)).

(** The schema written inline in the [publish_collection_items] case. *)
Definition PublishCollectionItemsSchema : ZodType Publish.t :=
  z_object (fpure Publish.mk
    <*> field "collectionId" z_string
    <*> field "itemIds" (z_array z_string)).

(** ** Payloads built by the handler *)

(** [{ ...a, ...b }]: the keys of [b] win. *)
Definition spread {V} (a : gmap string V) (b : option (gmap string V)) : gmap string V :=
  match b with
  | Some b => b ∪ a
  | None => a
  end.

(** [slug || name.toLowerCase().replace(...)]. *)
Definition slug_or_default (slug : option string) (name : string) : string :=
  if truthy slug then default "" slug else slugify name.

(** The [fieldData] object of [itemData]. *)
Definition create_fieldData (p : Create.t) : gmap string JsValue :=
  spread
    (<["slug" := JStr (slug_or_default (Create.slug p) (Create.name p))]>
       (<["name" := JStr (Create.name p)]> ∅))
    (Create.fieldData p).

(** [itemData] of the [create_collection_item] case. *)
Definition itemData (p : Create.t) : gmap string JsValue :=
  <["isArchived" := JBool (Create.isArchived p)]>
    (<["isDraft" := JBool (Create.isDraft p)]>
       (<["fieldData" := JObj (create_fieldData p)]> ∅)).

(** [if (v) fd[k] = v] for an optional string [v]. *)
Definition set_if_truthy (k : string) (v : option string)
    (fd : gmap string JsValue) : gmap string JsValue :=
  match v with
  | Some s => if truthy v then <[k := JStr s]> fd else fd
  | None => fd
  end.

(** The [fieldData] object assembled under [if (name || slug || fieldData)]. *)
Definition update_fieldData (p : Update.t) : gmap string JsValue :=
  let fd : gmap string JsValue := ∅ in
  let fd := set_if_truthy "name" (Update.name p) fd in
  let fd := set_if_truthy "slug" (Update.slug p) fd in
  match Update.fieldData p with
  | Some fieldData => spread fd (Some fieldData)
  | None => fd
  end.

(** [updateData] of the [update_collection_item] case. *)
Definition updateData (p : Update.t) : gmap string JsValue :=
  let data : gmap string JsValue := ∅ in
  let data :=
    if truthy (Update.name p) || truthy (Update.slug p) || bool_decide (is_Some (Update.fieldData p))
    then <["fieldData" := JObj (update_fieldData p)]> data
    else data in
  let data :=
    match Update.isDraft p with
    | Some b => <["isDraft" := JBool b]> data
    | None => data
    end in
  match Update.isArchived p with
  | Some b => <["isArchived" := JBool b]> data
  | None => data
  end.

(** ** HTTP requests, responses and the effects of the handler *)

(** The second argument of [fetch]. An absent [method] means GET. *)
Record RequestInit : Type := mkInit {
  method : option string;
  body : option string;
  headers : option (gmap string string)
}.

Record Request : Type := mkRequest {
  url : string;
  init : RequestInit
}.

(** What the program reads of a response: [status], the body as [text()],
    and the outcome of [json()] (the message of the error it rejects with,
    or the parsed value). *)
Record Response : Type := mkResponse {
  status : Z;
  text : string;
  json : string + JsValue
}.

(** [response.ok]. *)
Definition ok (r : Response) : bool := (200 <=? status r) && (status r <=? 299).

Inductive ErrorCode : Type := MethodNotFound | InvalidParams | InternalError.

(** The three classes of exception that occur; all are instances of
    [Error]. [McpError] carries the arguments of its constructor. *)
Inductive JsError : Type :=
| ZodError (errors : list ZodIssue)
| McpError (code : ErrorCode) (message : string)
| Error (message : string).

(** A computation records the requests it sent and either throws or
    returns. *)
Definition Eff (A : Type) : Type := (list Request * (JsError + A))%type.

Definition ret {A} (a : A) : Eff A := ([], inr a).

Definition throw {A} (e : JsError) : Eff A := ([], inl e).

Definition bind {A B} (m : Eff A) (f : A -> Eff B) : Eff B :=
  match m with
  | (sent, inl e) => (sent, inl e)
  | (sent, inr a) => let '(sent', r) := f a in ((sent ++ sent')%list, r)
  end.

Definition try_catch {A} (m : Eff A) (handler : JsError -> Eff A) : Eff A :=
  match m with
  | (sent, inl e) => let '(sent', r) := handler e in ((sent ++ sent')%list, r)
  | (sent, inr a) => (sent, inr a)
  end.

(** [schema.parse(args)] inside the handler. *)
Definition parse_or_throw {A} (schema : ZodType A) (args : JsValue) : Eff A :=
  match parse schema args with
  | inl errors => throw (ZodError errors)
  | inr a => ret a
  end.

Notation "x <- m ;; k" := (bind m (fun x => k))
  (at level 100, m at next level, right associativity).

Definition requests {A} (m : Eff A) : list Request := fst m.
Definition outcome {A} (m : Eff A) : JsError + A := snd m.

Definition WEBFLOW_API_BASE : string := "https://api.webflow.com/v2".

(** One block of the [content] array of a tool result. *)
Record TextContent : Type := mkContent {
  content_type : string;
  content_text : string
}.

(** The two line feeds written [\n\n] in the success messages. *)
Definition LF2 : string :=
  String (ascii_of_nat 10) (String (ascii_of_nat 10) EmptyString).

Definition text_result (s : string) : list TextContent := [mkContent "text" s].

(** The cases of the dispatch switch. *)
Inductive ToolCase : Type :=
| get_sites
| get_site
| get_collections
| get_collection_items
| create_collection_item
| update_collection_item
| delete_collection_item
| publish_collection_items.

(** The case labels, in the order of the switch. *)
Definition case_labels : list (string * ToolCase) :=
  [ ("get_sites", get_sites);
    ("get_site", get_site);
    ("get_collections", get_collections);
    ("get_collection_items", get_collection_items);
    ("create_collection_item", create_collection_item);
    ("update_collection_item", update_collection_item);
    ("delete_collection_item", delete_collection_item);
    ("publish_collection_items", publish_collection_items) ].

(** [switch (name)]: the first label strictly equal to [name], or
    [default]. *)
Definition switch_case (name : string) : option ToolCase :=
  snd <$> find (fun c => String.eqb name (fst c)) case_labels.

(** [`${e.path.join('.')}: ${e.message}`]. *)
Definition format_issue (e : ZodIssue) : string :=
  join "." (map path_elem_str (issue_path e)) ++ ": " ++ issue_message e.

Definition no_options : RequestInit := mkInit None None None.

Section Server.

(** The credential read from the environment at startup. *)
Variable WEBFLOW_API_TOKEN : string.

(** The remote side: [fetch] rejects with an error message or resolves
    to a response. *)
Variable fetch : string -> RequestInit -> string + Response.

(** [JSON.stringify(value, null, space)]; [space] is 0 when omitted. *)
Variable JSON_stringify : JsValue -> nat -> string.

(** [error.message] of an [McpError] built from a code and a message. *)
Variable McpError_message : ErrorCode -> string -> string.

Record WebflowAPI : Type := mkAPI { api_headers : gmap string string }.

Definition new_WebflowAPI (apiToken : string) : WebflowAPI :=
  mkAPI (<["Content-Type" := "application/json"]>
           (<["Authorization" := "Bearer " ++ apiToken]> ∅)).

Definition do_fetch (u : string) (i : RequestInit) : Eff Response :=
  ([mkRequest u i],
   match fetch u i with
   | inl msg => inl (Error msg)
   | inr response => inr response
   end).

Definition makeRequest (this : WebflowAPI) (endpoint : string)
    (options : RequestInit) : Eff JsValue :=
  let u := WEBFLOW_API_BASE ++ endpoint in
  response <- do_fetch u
    (mkInit (method options) (body options)
       (Some (spread (api_headers this) (headers options)))) ;;
  if negb (ok response) then
    let errorText := text response in
    throw (Error ("Webflow API error (" ++ numToString (status response)
                    ++ "): " ++ errorText))
  else
    match json response with
    | inl msg => throw (Error msg)
    | inr v => ret v
    end.

Definition getSites (this : WebflowAPI) : Eff JsValue :=
  makeRequest this "/sites" no_options.

Definition getSite (this : WebflowAPI) (siteId : string) : Eff JsValue :=
  makeRequest this ("/sites/" ++ siteId) no_options.

Definition getCollections (this : WebflowAPI) (siteId : string) : Eff JsValue :=
  makeRequest this ("/sites/" ++ siteId ++ "/collections") no_options.

(** [limit = 10] and [offset = 0] are default parameters: they apply when
    the argument is [undefined]. *)
Definition getCollectionItems (this : WebflowAPI) (collectionId : string)
    (limit offset : option Z) : Eff JsValue :=
  let limit := default 10 limit in
  let offset := default 0 offset in
  makeRequest this
    ("/collections/" ++ collectionId ++ "/items?limit=" ++ numToString limit
       ++ "&offset=" ++ numToString offset)
    no_options.

Definition createCollectionItem (this : WebflowAPI) (collectionId : string)
    (data : JsValue) : Eff JsValue :=
  makeRequest this ("/collections/" ++ collectionId ++ "/items")
    (mkInit (Some "POST") (Some (JSON_stringify data 0)) None).

Definition updateCollectionItem (this : WebflowAPI) (collectionId itemId : string)
    (data : JsValue) : Eff JsValue :=
  makeRequest this ("/collections/" ++ collectionId ++ "/items/" ++ itemId)
    (mkInit (Some "PATCH") (Some (JSON_stringify data 0)) None).

Definition deleteCollectionItem (this : WebflowAPI) (collectionId itemId : string)
    : Eff JsValue :=
  makeRequest this ("/collections/" ++ collectionId ++ "/items/" ++ itemId)
    (mkInit (Some "DELETE") None None).

Definition publishCollectionItems (this : WebflowAPI) (collectionId : string)
    (itemIds : list string) : Eff JsValue :=
  makeRequest this ("/collections/" ++ collectionId ++ "/items/publish")
    (mkInit (Some "POST")
       (Some (JSON_stringify (JObj (<["itemIds" := JArr (map JStr itemIds)]> ∅)) 0))
       None).

Definition webflowAPI : WebflowAPI := new_WebflowAPI WEBFLOW_API_TOKEN.

(** The body of each [case] of the switch. *)
Definition case_body (c : ToolCase) (args : JsValue) : Eff (list TextContent) :=
  match c with
  | get_sites =>
      result <- getSites webflowAPI ;;
      ret (text_result (JSON_stringify result 2))
  | get_site =>
      p <- parse_or_throw GetSiteSchema args ;;
      result <- getSite webflowAPI (Site.siteId p) ;;
      ret (text_result (JSON_stringify result 2))
  | get_collections =>
      p <- parse_or_throw GetCollectionsSchema args ;;
      result <- getCollections webflowAPI (Site.siteId p) ;;
      ret (text_result (JSON_stringify result 2))
  | get_collection_items =>
      p <- parse_or_throw GetCollectionItemsSchema args ;;
      result <- getCollectionItems webflowAPI (Items.collectionId p)
                  (Some (Items.limit p)) (Some (Items.offset p)) ;;
      ret (text_result (JSON_stringify result 2))
  | create_collection_item =>
      p <- parse_or_throw CreateCollectionItemSchema args ;;
      result <- createCollectionItem webflowAPI (Create.collectionId p)
                  (JObj (itemData p)) ;;
      ret (text_result ("âœ… Successfully created collection item!" ++ LF2 ++ JSON_stringify result 2))
  | update_collection_item =>
      p <- parse_or_throw UpdateCollectionItemSchema args ;;
      result <- updateCollectionItem webflowAPI (Update.collectionId p)
                  (Update.itemId p) (JObj (updateData p)) ;;
      ret (text_result ("âœ… Successfully updated collection item!" ++ LF2 ++ JSON_stringify result 2))
  | delete_collection_item =>
      p <- parse_or_throw DeleteCollectionItemSchema args ;;
      _ <- deleteCollectionItem webflowAPI (ItemRef.collectionId p)
             (ItemRef.itemId p) ;;
      ret (text_result ("âœ… Successfully deleted collection item "
                          ++ ItemRef.itemId p))
  | publish_collection_items =>
      p <- parse_or_throw PublishCollectionItemsSchema args ;;
      result <- publishCollectionItems webflowAPI (Publish.collectionId p)
                  (Publish.itemIds p) ;;
      ret (text_result ("âœ… Successfully published "
                          ++ numToString (Z.of_nat (length (Publish.itemIds p)))
                          ++ " item(s)!" ++ LF2 ++ JSON_stringify result 2))
  end.

(** The [catch] block: a [ZodError] becomes invalid-params, anything
    else an internal error carrying [error.message]. *)
Definition on_error (name : string) (error : JsError) : Eff (list TextContent) :=
  match error with
  | ZodError errors =>
      throw (McpError InvalidParams
               ("Invalid parameters: " ++ join ", " (map format_issue errors)))
  | McpError code message =>
      throw (McpError InternalError
               ("Error executing " ++ name ++ ": " ++ McpError_message code message))
  | Error message =>
      throw (McpError InternalError
               ("Error executing " ++ name ++ ": " ++ message))
  end.

(** The handler of [CallToolRequestSchema]. *)
Definition call_tool (name : string) (args : JsValue) : Eff (list TextContent) :=
  try_catch
    match switch_case name with
    | Some c => case_body c args
    | None => throw (McpError MethodNotFound ("Unknown tool: " ++ name))
    end
    (on_error name).

End Server.

(** ** The tool catalogue *)

Record Property : Type := mkProp {
  prop_name : string;
  prop_type : string;
  prop_description : string;
  prop_default : option JsValue;
  prop_items : option string
}.

Record InputSchema : Type := mkSchema {
  properties : list Property;
  required : list string
}.

Record Tool : Type := mkTool {
  name : string;
  description : string;
  inputSchema : InputSchema
}.

Definition prop (n ty d : string) : Property := mkProp n ty d None None.

Definition tools : list Tool :=
  [ mkTool "get_sites"
      "Retrieve a list of all Webflow sites accessible to the authenticated user"
      (mkSchema [] []);
    mkTool "get_site"
      "Retrieve detailed information about a specific Webflow site by ID"
      (mkSchema
         [prop "siteId" "string" "The unique identifier of the Webflow site"]
         ["siteId"]);
    mkTool "get_collections"
      "Retrieve a list of all CMS collections for a specific Webflow site"
      (mkSchema
         [prop "siteId" "string" "The unique identifier of the Webflow site"]
         ["siteId"]);
    mkTool "get_collection_items"
      "Retrieve items from a specific collection"
      (mkSchema
         [prop "collectionId" "string" "The unique identifier of the collection";
          mkProp "limit" "number" "Number of items to retrieve (default: 10)"
            (Some (JNum 10)) None;
          mkProp "offset" "number" "Number of items to skip (default: 0)"
            (Some (JNum 0)) None]
         ["collectionId"]);
    mkTool "create_collection_item"
      "Create a new item in a collection"
      (mkSchema
         [prop "collectionId" "string" "The unique identifier of the collection";
          prop "name" "string" "The name of the collection item";
          prop "slug" "string"
            "The slug for the item (optional, will be auto-generated if not provided)";
          prop "fieldData" "object" "Additional field data for the collection item";
          mkProp "isDraft" "boolean"
            "Whether the item should be created as a draft (default: false)"
            (Some (JBool false)) None;
          mkProp "isArchived" "boolean"
            "Whether the item should be archived (default: false)"
            (Some (JBool false)) None]
         ["collectionId"; "name"]);
    mkTool "update_collection_item"
      "Update an existing collection item"
      (mkSchema
         [prop "collectionId" "string" "The unique identifier of the collection";
          prop "itemId" "string" "The unique identifier of the item to update";
          prop "name" "string" "The new name of the collection item";
          prop "slug" "string" "The new slug for the item";
          prop "fieldData" "object" "Updated field data for the collection item";
          prop "isDraft" "boolean" "Whether the item should be a draft";
          prop "isArchived" "boolean" "Whether the item should be archived"]
         ["collectionId"; "itemId"]);
    mkTool "delete_collection_item"
      "Delete a collection item"
      (mkSchema
         [prop "collectionId" "string" "The unique identifier of the collection";
          prop "itemId" "string" "The unique identifier of the item to delete"]
         ["collectionId"; "itemId"]);
    mkTool "publish_collection_items"
      "Publish one or more collection items"
      (mkSchema
         [prop "collectionId" "string" "The unique identifier of the collection";
          mkProp "itemIds" "array" "Array of item IDs to publish" None (Some "string")]
         ["collectionId"; "itemIds"]) ].

(** The handler of [ListToolsRequestSchema]. *)
Definition list_tools : list Tool := tools.

(** ** Auxiliary definitions for the statements *)

(** The issues of the [ZodError] thrown by the [parse] of a case, if it
    throws. [get_sites] parses nothing. *)
Definition issues_of {A} (r : ParseResult A) : option (list ZodIssue) :=
  match r with
  | inl errors => Some errors
  | inr _ => None
  end.

Definition schema_errors (c : ToolCase) (args : JsValue) : option (list ZodIssue) :=
  match c with
  | get_sites => None
  | get_site => issues_of (parse GetSiteSchema args)
  | get_collections => issues_of (parse GetCollectionsSchema args)
  | get_collection_items => issues_of (parse GetCollectionItemsSchema args)
  | create_collection_item => issues_of (parse CreateCollectionItemSchema args)
  | update_collection_item => issues_of (parse UpdateCollectionItemSchema args)
  | delete_collection_item => issues_of (parse DeleteCollectionItemSchema args)
  | publish_collection_items => issues_of (parse PublishCollectionItemsSchema args)
  end.

(** The two headers set by the constructor of [WebflowAPI]. *)
Definition default_headers (apiToken : string) : gmap string string :=
  <["Content-Type" := "application/json"]>
    (<["Authorization" := "Bearer " ++ apiToken]> ∅).

(** An argument is omitted when its key is absent or holds [undefined]. *)
Definition omitted (o : gmap string JsValue) (k : string) : Prop :=
  default JUndefined (o !! k) = JUndefined.

(** The request built by [makeRequest]. *)
Definition request_of (this : WebflowAPI) (endpoint : string)
    (options : RequestInit) : Request :=
  mkRequest (WEBFLOW_API_BASE ++ endpoint)
    (mkInit (method options) (body options)
       (Some (spread (api_headers this) (headers options)))).

(** The message of the error thrown on a response that is not [ok]. *)
Definition api_error_message (response : Response) : string :=
  "Webflow API error (" ++ numToString (status response) ++ "): " ++ text response.

(** Characters of a slug, and the absence of two hyphens in a row. *)
Definition slug_alphabet (s : string) : Prop :=
  Forall (fun c => is_slug_char c = true \/ c = "-"%char) (list_ascii_of_string s).

Fixpoint no_double_hyphen (s : string) : Prop :=
  match s with
  | String "-" (String "-" _) => False
  | String _ s' => no_double_hyphen s'
  | EmptyString => True
  end.

(** Sample surroundings used to run the handler on concrete calls: a
    remote side that answers every request with the given status and body,
    a serialiser that only tells objects from other values, and the
    message format of the SDK's [McpError]. *)
Definition sample_fetch (st : Z) (txt : string) : string -> RequestInit -> string + Response :=
  fun _ _ => inr (mkResponse st txt (inr (JObj ∅))).

Definition sample_stringify : JsValue -> nat -> string :=
  fun v _ => match v with JObj _ => "{}" | _ => "null" end.

Definition sample_code (c : ErrorCode) : string :=
  match c with
  | MethodNotFound => "-32601"
  | InvalidParams => "-32602"
  | InternalError => "-32603"
  end.

Definition sample_message : ErrorCode -> string -> string :=
  fun c m => "MCP error " ++ sample_code c ++ ": " ++ m.

Definition obj (l : list (string * JsValue)) : gmap string JsValue := list_to_map l.

(** The handler in the sample surroundings, with the credential "secret"
    and a remote side answering with status [st] and body [txt]. *)
Definition sample_call (st : Z) (txt : string) : string -> JsValue -> Eff (list TextContent) :=
  call_tool "secret" (sample_fetch st txt) sample_stringify sample_message.

(** The method [fetch] uses for a request: GET unless one is given. *)
Definition http_method (i : RequestInit) : string := default "GET" (method i).

(** More sample remote sides: one that cannot be reached ([fetch] rejects
    with [msg]), and one whose body [json()] cannot parse. *)
Definition sample_fetch_reject (msg : string) : string -> RequestInit -> string + Response :=
  fun _ _ => inl msg.

Definition sample_fetch_no_json (st : Z) (txt msg : string)
    : string -> RequestInit -> string + Response :=
  fun _ _ => inr (mkResponse st txt (inl msg)).

(** The method each case of the switch hands to [fetch], and whether it
    hands over a body. *)
Definition tool_method (c : ToolCase) : option string :=
  match c with
  | get_sites | get_site | get_collections | get_collection_items => None
  | create_collection_item | publish_collection_items => Some "POST"
  | update_collection_item => Some "PATCH"
  | delete_collection_item => Some "DELETE"
  end.

Definition sends_body (c : ToolCase) : bool :=
  match c with
  | create_collection_item | update_collection_item | publish_collection_items => true
  | _ => false
  end.

(** The value read at a key of an argument object: [undefined] when the
    key is absent. *)
Definition arg (o : gmap string JsValue) (k : string) : JsValue :=
  default JUndefined (o !! k).

(** The catalogue's input shapes read as JSON Schema: the type name of a
    value, the check of one property ([type], and [items] for arrays),
    and conformance of an argument object (every required key is present,
    every listed property that is present has its type). *)
Definition json_type (v : JsValue) : string :=
  match v with
  | JUndefined => "undefined"
  | JNull => "null"
  | JBool _ => "boolean"
  | JNum _ => "number"
  | JStr _ => "string"
  | JArr _ => "array"
  | JObj _ => "object"
  end.

Definition type_ok (p : Property) (v : JsValue) : bool :=
  String.eqb (json_type v) (prop_type p) &&
  match v, prop_items p with
  | JArr l, Some ty => forallb (fun x => String.eqb (json_type x) ty) l
  | _, _ => true
  end.

Definition is_undefined (v : JsValue) : bool :=
  match v with
  | JUndefined => true
  | _ => false
  end.

Definition conforms (s : InputSchema) (o : gmap string JsValue) : bool :=
  forallb (fun k => negb (is_undefined (arg o k))) (required s) &&
  forallb (fun p => is_undefined (arg o (prop_name p)) || type_ok p (arg o (prop_name p)))
          (properties s).

(** Two argument objects agree on a list of keys. *)
Definition agree_on (keys : list string) (o o' : gmap string JsValue) : Prop :=
  forall k, In k keys -> o !! k = o' !! k.

(** A parse result is accepted; a parse result reports an issue. *)
Definition accepted {A} (r : ParseResult A) : bool :=
  match r with
  | inr _ => true
  | inl _ => false
  end.

Definition reports {A} (r : ParseResult A) (i : ZodIssue) : Prop :=
  match r with
  | inl errors => In i errors
  | inr _ => False
  end.

(** What becomes of a call once its case has reached [makeRequest]. *)
Definition after_request (fetch : string -> RequestInit -> string + Response)
    (n : string) (req : Request)
    (k : JsValue -> list TextContent) : JsError + list TextContent :=
  match fetch (url req) (init req) with
  | inl msg => inl (McpError InternalError ("Error executing " ++ n ++ ": " ++ msg))
  | inr response =>
      if ok response then
        match json response with
        | inl msg => inl (McpError InternalError ("Error executing " ++ n ++ ": " ++ msg))
        | inr v => inr (k v)
        end
      else inl (McpError InternalError
                  ("Error executing " ++ n ++ ": " ++ api_error_message response))
  end.

(** The entry of the catalogue at a position (0 is [get_sites]). *)
Definition catalogue_entry (i : nat) : Tool :=
  nth i tools (mkTool "" "" (mkSchema [] [])).

(** [s.startsWith(x)] and [s.includes(x)] computed. *)
Fixpoint prefixb (x s : string) : bool :=
  match x, s with
  | EmptyString, _ => true
  | String a x', String b s' => Ascii.eqb a b && prefixb x' s'
  | String _ _, EmptyString => false
  end.

Fixpoint includesb (s x : string) : bool :=
  prefixb x s ||
  match s with
  | EmptyString => false
  | String _ s' => includesb s' x
  end.

(** Names on which the byte-wise [toLowerCase] is the one of JavaScript:
    every character is ASCII. *)
Definition ascii_only (s : string) : Prop :=
  Forall (fun c => (nat_of_ascii c < 128)%nat) (list_ascii_of_string s).

(** Numbers that a JavaScript number holds exactly and that a template
    literal prints in plain decimal: the safe integers. *)
Definition safe_integer (n : Z) : Prop :=
  -9007199254740991 <= n <= 9007199254740991.

(** Length of a string in characters. *)
Definition strlen (s : string) : nat := String.length s.

(** * Properties *)

(** ** Strings *)

Lemma append_cons (c : ascii) (s t : string) : String c s ++ t = String c (s ++ t).
Proof. reflexivity. Qed.

Lemma append_empty_r (s : string) : s ++ "" = s.
Proof. induction s as [|c s IH]; [done|]. by rewrite append_cons, IH. Qed.

Lemma append_assoc (s t u : string) : s ++ (t ++ u) = (s ++ t) ++ u.
Proof. induction s as [|c s IH]; [done|]. by rewrite !append_cons, IH. Qed.

Lemma includes_refl (s : string) : includes s s.
Proof. exists "", "". change ("" ++ s ++ "") with (s ++ ""). by rewrite append_empty_r. Qed.

Lemma includes_app_l (s t x : string) : includes s x -> includes (s ++ t) x.
Proof.
  intros (pre & post & ->). exists pre, (post ++ t).
  by rewrite <- !append_assoc.
Qed.

Lemma includes_app_r (s t x : string) : includes t x -> includes (s ++ t) x.
Proof.
  intros (pre & post & ->). exists (s ++ pre), post.
  by rewrite <- !append_assoc.
Qed.

Create HintDb incl.

#[local] Hint Resolve includes_refl includes_app_l includes_app_r : incl.

Lemma join_includes (sep : string) (l : list string) (x : string) :
  In x l -> includes (join sep l) x.
Proof.
  induction l as [|y l IH]; [done|].
  intros [->|Hin].
  - destruct l; simpl; auto with incl.
  - destruct l as [|z l]; [destruct Hin|].
    change (join sep (y :: z :: l)) with (y ++ sep ++ join sep (z :: l)).
    auto with incl.
Qed.

Lemma prefixb_app (x post : string) : prefixb x (x ++ post) = true.
Proof.
  induction x as [|a x IH]; [done|].
  rewrite append_cons. cbn [prefixb]. by rewrite Ascii.eqb_refl, IH.
Qed.

Lemma includes_includesb (s x : string) : includes s x -> includesb s x = true.
Proof.
  intros (pre & post & ->). induction pre as [|a pre IH].
  - change ("" ++ x ++ post) with (x ++ post).
    destruct (x ++ post) eqn:E; cbn [includesb]; rewrite <- E, prefixb_app; done.
  - rewrite append_cons. cbn [includesb]. rewrite IH. apply orb_true_r.
Qed.

(** ** The slug *)

Lemma replace_runs_alphabet (s : string) (b : bool) : slug_alphabet (replace_runs b s).
Proof.
  unfold slug_alphabet. revert b.
  induction s as [|c s IH]; intros b; simpl; [constructor|].
  destruct (is_slug_char c) eqn:Hc; simpl.
  - constructor; [by left | apply IH].
  - destruct b; [apply IH|]. simpl. constructor; [by right | apply IH].
Qed.

Lemma replace_runs_no_double_hyphen (s : string) (b : bool) :
  no_double_hyphen (replace_runs b s) /\
  (b = true -> forall s', replace_runs b s = String "-" s' -> False).
Proof.
  revert b. induction s as [|c s IH]; intros b.
  - simpl. split; [done | discriminate].
  - cbn [replace_runs]. destruct (is_slug_char c) eqn:Hc.
    + destruct (IH false) as [IH1 _]. split.
      * cbn [no_double_hyphen].
        destruct (replace_runs false s) as [|c' r] eqn:Hr; [by destruct c as [[] [] [] [] [] [] [] []]|].
        destruct c as [[] [] [] [] [] [] [] []]; try exact IH1.
        discriminate Hc.
      * intros _ s' Heq. injection Heq as -> _. discriminate Hc.
    + destruct b.
      * apply IH.
      * destruct (IH true) as [IH1 IH2]. split; [|discriminate].
        cbn [no_double_hyphen].
        destruct (replace_runs true s) as [|c' r] eqn:Hr; [done|].
        destruct c' as [[] [] [] [] [] [] [] []]; try exact IH1.
        exfalso. by eapply IH2.
Qed.

Lemma slugify_alphabet (n : string) : slug_alphabet (slugify n).
Proof. apply replace_runs_alphabet. Qed.

Lemma slugify_no_double_hyphen (n : string) : no_double_hyphen (slugify n).
Proof. apply replace_runs_no_double_hyphen. Qed.

(** ** The dispatch switch *)

Lemma switch_case_label (n : string) (c : ToolCase) :
  switch_case n = Some c -> In (n, c) case_labels.
Proof.
  unfold switch_case. destruct (find _ case_labels) as [[n' c']|] eqn:Hf; [|done].
  intros [= <-]. apply find_some in Hf as [Hin Heq].
  apply String.eqb_eq in Heq. simpl in Heq. by subst n'.
Qed.

Lemma switch_case_default (n : string) :
  switch_case n = None <-> ~ In n (map fst case_labels).
Proof.
  unfold switch_case. split.
  - destruct (find _ case_labels) eqn:Hf; [done|]. intros _ Hin.
    apply in_map_iff in Hin as ([n' c] & Hn & Hin). simpl in Hn. subst n'.
    pose proof (find_none _ _ Hf _ Hin) as Hne. simpl in Hne.
    by rewrite String.eqb_refl in Hne.
  - intros Hnot. destruct (find _ case_labels) as [[n' c]|] eqn:Hf; [|done].
    apply find_some in Hf as [Hin Heq]. apply String.eqb_eq in Heq.
    simpl in Heq. subst n'. destruct Hnot.
    apply in_map_iff. by exists (n, c).
Qed.

(** ** Validation *)

Lemma fap_inr {A B} (f : FieldParser (A -> B)) (x : FieldParser A)
    (o : gmap string JsValue) (path : list PathElem) (b : B) :
  (f <*> x) o path = inr b ->
  exists g a, f o path = inr g /\ x o path = inr a /\ b = g a.
Proof.
  unfold fap. destruct (f o path) as [e1|g], (x o path) as [e2|a]; intros [= <-].
  by exists g, a.
Qed.

Lemma fap_ok {A B} (f : FieldParser (A -> B)) (x : FieldParser A)
    (o : gmap string JsValue) (path : list PathElem) (g : A -> B) (a : A) :
  f o path = inr g -> x o path = inr a -> (f <*> x) o path = inr (g a).
Proof. unfold fap. by intros -> ->. Qed.

Lemma field_string_inr (k : string) (o : gmap string JsValue)
    (path : list PathElem) (s : string) :
  field k z_string o path = inr s -> o !! k = Some (JStr s).
Proof.
  unfold field, z_string. destruct (o !! k) as [[]|]; simpl; intros [=]. congruence.
Qed.

Lemma field_string_ok (k : string) (o : gmap string JsValue)
    (path : list PathElem) (s : string) :
  o !! k = Some (JStr s) -> field k z_string o path = inr s.
Proof. unfold field. by intros ->. Qed.

Lemma field_optional_omitted {A} (k : string) (t : ZodType A)
    (o : gmap string JsValue) (path : list PathElem) :
  omitted o k -> field k (z_optional t) o path = inr None.
Proof. unfold omitted, field, z_optional. by intros ->. Qed.

Lemma field_default_omitted {A} (k : string) (t : ZodType (option A)) (d : A)
    (o : gmap string JsValue) (path : list PathElem) :
  omitted o k -> field k (z_default t d) o path = inr d.
Proof. unfold omitted, field, z_default. by intros ->. Qed.

Lemma field_record_inr (k : string) (o : gmap string JsValue)
    (path : list PathElem) (r : option (gmap string JsValue)) :
  field k (z_optional z_record_any) o path = inr r ->
  match r with
  | Some f => exists fd, o !! k = Some (JObj fd) /\ f = delete "__proto__" fd
  | None => omitted o k
  end.
Proof.
  unfold field, z_optional, z_record_any, omitted.
  destruct (o !! k) as [[]|]; simpl; intros [= <-]; eauto.
Qed.

Lemma field_optional_string_inr (k : string) (o : gmap string JsValue)
    (path : list PathElem) (r : option string) :
  field k (z_optional z_string) o path = inr r ->
  match r with
  | Some s => o !! k = Some (JStr s)
  | None => omitted o k
  end.
Proof.
  unfold field, z_optional, z_string, omitted.
  destruct (o !! k) as [[]|]; simpl; intros [= <-]; eauto.
Qed.

(** What a successful parse of the arguments of [create_collection_item]
    tells about the arguments. *)
Lemma parse_create_inr (o : gmap string JsValue) (p : Create.t) :
  parse CreateCollectionItemSchema (JObj o) = inr p ->
  o !! "collectionId" = Some (JStr (Create.collectionId p)) /\
  o !! "name" = Some (JStr (Create.name p)) /\
  match Create.slug p with
  | Some s => o !! "slug" = Some (JStr s)
  | None => omitted o "slug"
  end /\
  match Create.fieldData p with
  | Some f => exists fd, o !! "fieldData" = Some (JObj fd) /\ f = delete "__proto__" fd
  | None => omitted o "fieldData"
  end.
Proof.
  unfold parse, CreateCollectionItemSchema, z_object. intros H.
  apply fap_inr in H as (g6 & a6 & H & _ & ->).
  apply fap_inr in H as (g5 & a5 & H & _ & ->).
  apply fap_inr in H as (g4 & a4 & H & H4 & ->).
  apply fap_inr in H as (g3 & a3 & H & H3 & ->).
  apply fap_inr in H as (g2 & a2 & H & H2 & ->).
  apply fap_inr in H as (g1 & a1 & H & H1 & ->).
  injection H as <-. simpl.
  split; [by eapply field_string_inr|]. split; [by eapply field_string_inr|].
  split; [by eapply field_optional_string_inr|by eapply field_record_inr].
Qed.

Lemma parse_update_minimal (o : gmap string JsValue) (c i : string) :
  o !! "collectionId" = Some (JStr c) ->
  o !! "itemId" = Some (JStr i) ->
  omitted o "name" -> omitted o "slug" -> omitted o "fieldData" ->
  omitted o "isDraft" -> omitted o "isArchived" ->
  parse UpdateCollectionItemSchema (JObj o)
    = inr (Update.mk c i None None None None None).
Proof.
  intros Hc Hi Hn Hs Hf Hd Ha. unfold parse, UpdateCollectionItemSchema, z_object.
  repeat (apply fap_ok; [|by (apply field_string_ok || apply field_optional_omitted)]).
  done.
Qed.

Lemma parse_items_defaults (o : gmap string JsValue) (c : string) :
  o !! "collectionId" = Some (JStr c) ->
  omitted o "limit" -> omitted o "offset" ->
  parse GetCollectionItemsSchema (JObj o) = inr (Items.mk c 10 0).
Proof.
  intros Hc Hl Ho. unfold parse, GetCollectionItemsSchema, z_object.
  repeat (apply fap_ok; [|by (apply field_string_ok || apply field_default_omitted)]).
  done.
Qed.

(** ** The effects of the adapter and of each case *)

Lemma bind_ret_l {A B} (a : A) (f : A -> Eff B) : bind (ret a) f = f a.
Proof. unfold bind, ret. by destruct (f a). Qed.

Section Properties.

Variable WEBFLOW_API_TOKEN : string.
Variable fetch : string -> RequestInit -> string + Response.
Variable JSON_stringify : JsValue -> nat -> string.
Variable McpError_message : ErrorCode -> string -> string.

Local Abbreviation api := (webflowAPI WEBFLOW_API_TOKEN).
Local Abbreviation handler := (call_tool WEBFLOW_API_TOKEN fetch JSON_stringify McpError_message).
Local Abbreviation body_of := (case_body WEBFLOW_API_TOKEN fetch JSON_stringify).
Local Abbreviation send := (makeRequest fetch).

Lemma makeRequest_eq (this : WebflowAPI) (endpoint : string) (options : RequestInit) :
  send this endpoint options =
    ([request_of this endpoint options],
     match fetch (url (request_of this endpoint options))
                 (init (request_of this endpoint options)) with
     | inl msg => inl (Error msg)
     | inr response =>
         if ok response then
           match json response with
           | inl msg => inl (Error msg)
           | inr v => inr v
           end
         else inl (Error (api_error_message response))
     end).
Proof.
  unfold makeRequest, do_fetch, bind, request_of. simpl.
  destruct (fetch _ _) as [msg|response]; [done|].
  destruct (ok response); simpl; [|done].
  by destruct (json response).
Qed.

(** Every case either throws the [ZodError] of its schema before any
    request, or sends exactly one request through [makeRequest] with no
    headers of its own and returns after it. *)
Lemma case_body_shape (c : ToolCase) (args : JsValue) :
  (exists errors, schema_errors c args = Some errors /\
                  body_of c args = throw (ZodError errors)) \/
  (schema_errors c args = None /\
   exists endpoint options k,
     headers options = None /\
     body_of c args = bind (send api endpoint options) k /\
     forall v, exists t, k v = ret t).
Proof.
  destruct c; cbn [case_body schema_errors]; unfold parse_or_throw;
    try match goal with
        | |- context [parse ?S args] =>
            destruct (parse S args) as [e|p]; [left; by exists e|rewrite bind_ret_l]
        end;
    (right; split; [done|]; do 3 eexists;
     split; [|split; [reflexivity|]]; [done|]; intros v; by eexists).
Qed.

(** The three ways a call can go: unknown name, invalid arguments, or one
    request whose fate decides the outcome. *)
Lemma call_tool_cases (n : string) (args : JsValue) :
  (switch_case n = None /\
   handler n args =
     ([], inl (McpError InternalError
                 ("Error executing " ++ n ++ ": "
                    ++ McpError_message MethodNotFound ("Unknown tool: " ++ n))))) \/
  (exists c errors,
     switch_case n = Some c /\ schema_errors c args = Some errors /\
     handler n args =
       ([], inl (McpError InvalidParams
                   ("Invalid parameters: " ++ join ", " (map format_issue errors))))) \/
  (exists c endpoint options,
     switch_case n = Some c /\ schema_errors c args = None /\
     headers options = None /\
     requests (handler n args) = [request_of api endpoint options] /\
     match fetch (url (request_of api endpoint options))
                 (init (request_of api endpoint options)) with
     | inl msg =>
         outcome (handler n args) =
           inl (McpError InternalError ("Error executing " ++ n ++ ": " ++ msg))
     | inr response =>
         if ok response then
           match json response with
           | inl msg =>
               outcome (handler n args) =
                 inl (McpError InternalError ("Error executing " ++ n ++ ": " ++ msg))
           | inr _ => exists t, outcome (handler n args) = inr t
           end
         else
           outcome (handler n args) =
             inl (McpError InternalError
                    ("Error executing " ++ n ++ ": " ++ api_error_message response))
     end).
Proof.
  unfold call_tool. destruct (switch_case n) as [c|]; [|by left].
  right. destruct (case_body_shape c args)
    as [(e & He & ->)|(Hnone & ep & o & k & Ho & -> & Hk)].
  - left. by exists c, e.
  - right. exists c, ep, o. do 3 (split; [done|]).
    rewrite makeRequest_eq.
    destruct (fetch _ _) as [msg|response]; [done|].
    destruct (ok response); [|done].
    destruct (json response) as [msg|v]; [done|].
    destruct (Hk v) as [t Ht]. unfold bind, try_catch. rewrite Ht. simpl.
    split; [done|]. by exists t.
Qed.

Lemma catalog_labels : map name tools = map fst case_labels.
Proof. reflexivity. Qed.

(** ** Errors surfaced to the caller *)

(** C2 (as the code behaves): for a name that is not in the catalogue the
    [default] branch throws a method-not-found [McpError] inside the [try];
    the [catch] block receives it, finds that it is not a [ZodError], and
    rethrows it as an internal error. The caller therefore gets
    [InternalError], never [MethodNotFound], and no request is sent. *)
Theorem C2_unknown_tool_rethrown_as_internal_error (n : string) (args : JsValue) :
  ~ In n (map name tools) ->
  handler n args =
    ([], inl (McpError InternalError
                ("Error executing " ++ n ++ ": "
                   ++ McpError_message MethodNotFound ("Unknown tool: " ++ n)))) /\
  forall m, outcome (handler n args) <> inl (McpError MethodNotFound m).
Proof.
  rewrite catalog_labels. intros Hn. apply switch_case_default in Hn.
  destruct (call_tool_cases n args)
    as [[_ ->]|[(c & ? & Hc & _)|(c & ? & ? & Hc & _)]]; [|congruence..].
  split; [done|]. intros m. discriminate.
Qed.

(** C6: whenever the response to the request of a call is not [ok]
    (status outside 200-299), the adapter fails with the error
    "Webflow API error (<status>): <body text>", built from [status] and
    [text()] only (the [json] of the response is not consulted), and the
    caller receives an internal error "Error executing <tool>: " followed
    by that message; it contains the tool name, the status and the body
    text. *)
Theorem C6_http_failure_is_internal_error
    (n : string) (args : JsValue) (req : Request) (response : Response) :
  In req (requests (handler n args)) ->
  fetch (url req) (init req) = inr response ->
  ok response = false ->
  let inner :=
    "Webflow API error (" ++ numToString (status response) ++ "): " ++ text response in
  let msg := "Error executing " ++ n ++ ": " ++ inner in
  (exists endpoint options,
     req = request_of api endpoint options /\
     outcome (send api endpoint options) = inl (Error inner)) /\
  outcome (handler n args) = inl (McpError InternalError msg) /\
  includes msg n /\
  includes msg (numToString (status response)) /\
  includes msg (text response).
Proof.
  intros Hin Hfetch Hok inner msg.
  destruct (call_tool_cases n args)
    as [[_ Heq]|[(c & e & _ & _ & Heq)|(c & ep & o & _ & _ & _ & Hreq & Hout)]].
  - rewrite Heq in Hin. destruct Hin.
  - rewrite Heq in Hin. destruct Hin.
  - rewrite Hreq in Hin. destruct Hin as [<-|[]].
    rewrite Hfetch, Hok in Hout. split; [|split; [exact Hout|]].
    + exists ep, o. split; [done|]. rewrite makeRequest_eq. unfold outcome. simpl.
      change (fetch _ _) with
        (fetch (url (request_of api ep o)) (init (request_of api ep o))).
      by rewrite Hfetch, Hok.
    + unfold msg, inner. repeat split; auto 10 with incl.
Qed.

(** C7: when the arguments of a call fail the schema of its tool, no
    request is sent and the caller receives an invalid-params error whose
    message is "Invalid parameters: " followed by the entries
    "<path joined by dots>: <message>" of all issues, joined by ", "; the
    entry of every issue occurs in it. For [get_site] called with an
    argument object, the message contains "siteId", and it is
    "Invalid parameters: siteId: Required" when siteId is omitted; for
    [get_site] called with no arguments at all the only issue sits at the
    empty path and the message is "Invalid parameters: : Required". *)
Theorem C7_validation_failure_is_invalid_params
    (n : string) (c : ToolCase) (args : JsValue) (errors : list ZodIssue) :
  switch_case n = Some c ->
  schema_errors c args = Some errors ->
  let msg := "Invalid parameters: " ++ join ", " (map format_issue errors) in
  handler n args = ([], inl (McpError InvalidParams msg)) /\
  (forall e, In e errors ->
     includes msg
       (join "." (map path_elem_str (issue_path e)) ++ ": " ++ issue_message e)) /\
  (c = get_site -> forall o, args = JObj o ->
     includes msg "siteId" /\
     (omitted o "siteId" -> msg = "Invalid parameters: siteId: Required")) /\
  (c = get_site -> args = JUndefined -> msg = "Invalid parameters: : Required").
Proof.
  intros Hc He msg.
  destruct (call_tool_cases n args)
    as [[? _]|[(c' & e' & Hc' & He' & Heq)|(c' & ? & ? & Hc' & He' & _)]];
    [congruence| |congruence].
  assert (c' = c) as -> by congruence. assert (e' = errors) as -> by congruence.
  split; [done|]. split.
  - intros e Hin. unfold msg.
    apply includes_app_r, join_includes.
    change (In (format_issue e) (map format_issue errors)). by apply in_map.
  - split.
    + intros -> o ->. clear Hc Hc' He' Heq.
      unfold schema_errors, parse, GetSiteSchema, z_object, fap, fpure, field,
        z_string, omitted in *.
      destruct (o !! "siteId") as [v|]; [destruct v|]; simpl in He;
        try discriminate He;
        injection He as <-; (split; [|done]);
        apply includes_app_r, includes_app_l, includes_refl.
    + intros -> ->. clear Hc Hc' He' Heq. cbn in He. by injection He as <-.
Qed.

(** When a call carries no argument object at all, the issue sits at the
    root of the schema and its path is empty. *)
Remark get_site_without_arguments :
  handler "get_site" JUndefined
    = ([], inl (McpError InvalidParams "Invalid parameters: : Required")).
Proof. reflexivity. Qed.

(** ** Headers of outbound requests *)

(** C9: every request sent while handling a call, whatever the tool and
    its arguments, carries exactly the headers set by the constructor of
    the adapter: Authorization "Bearer <credential>" and Content-Type
    "application/json". *)
Theorem C9_same_two_headers_on_every_request (n : string) (args : JsValue) :
  api_headers api = default_headers WEBFLOW_API_TOKEN /\
  default_headers WEBFLOW_API_TOKEN !! "Authorization"
    = Some ("Bearer " ++ WEBFLOW_API_TOKEN) /\
  default_headers WEBFLOW_API_TOKEN !! "Content-Type" = Some "application/json" /\
  dom (default_headers WEBFLOW_API_TOKEN) = {["Authorization"; "Content-Type"]} /\
  Forall (fun r => headers (init r) = Some (default_headers WEBFLOW_API_TOKEN))
         (requests (handler n args)).
Proof.
  split; [done|]. split; [done|]. split; [done|]. split.
  { unfold default_headers. rewrite !dom_insert_L, dom_empty_L. set_solver. }
  destruct (call_tool_cases n args)
    as [[_ ->]|[(c & e & _ & _ & ->)|(c & ep & o & _ & _ & Ho & -> & _)]];
    [constructor..|].
  constructor; [|constructor]. simpl. by rewrite Ho.
Qed.

(** ** Requests and payloads of the individual tools *)

Lemma requests_single (n endpoint : string) (options : RequestInit)
    (k : JsValue -> Eff (list TextContent)) :
  (forall v, exists t, k v = ret t) ->
  requests (try_catch (bind (send api endpoint options) k)
              (on_error McpError_message n))
    = [request_of api endpoint options].
Proof.
  intros Hk. rewrite makeRequest_eq.
  destruct (fetch _ _) as [msg|response]; [done|].
  destruct (ok response); [|done].
  destruct (json response) as [msg|v]; [done|].
  destruct (Hk v) as [t Ht]. unfold bind, try_catch. by rewrite Ht.
Qed.

Lemma create_request (o : gmap string JsValue) (p : Create.t) :
  parse CreateCollectionItemSchema (JObj o) = inr p ->
  requests (handler "create_collection_item" (JObj o)) =
    [mkRequest
       ("https://api.webflow.com/v2/collections/" ++ Create.collectionId p ++ "/items")
       (mkInit (Some "POST") (Some (JSON_stringify (JObj (itemData p)) 0))
          (Some (default_headers WEBFLOW_API_TOKEN)))].
Proof.
  intros Hp. unfold call_tool.
  change (switch_case "create_collection_item") with (Some create_collection_item).
  cbn [case_body]. unfold parse_or_throw. rewrite Hp, bind_ret_l.
  unfold createCollectionItem. rewrite requests_single; [done|].
  intros v. by eexists.
Qed.

(** C1, with the slug the code derives: with name "Hello World!", no slug argument and no slug
    key in fieldData, the payload sent by [create_collection_item] has
    fieldData.slug = "hello-world-". The name is lowercased and every
    maximal run of characters outside a-z, 0-9 becomes one hyphen, so a
    slug only has characters of a-z, 0-9 and "-" and never two hyphens in a
    row; the run "!" at the end of this name leaves a trailing hyphen,
    which is not trimmed. *)
Theorem C1_slug_of_hello_world (o : gmap string JsValue) (p : Create.t) :
  parse CreateCollectionItemSchema (JObj o) = inr p ->
  o !! "name" = Some (JStr "Hello World!") ->
  omitted o "slug" ->
  (forall fd, o !! "fieldData" = Some (JObj fd) -> fd !! "slug" = None) ->
  create_fieldData p !! "slug" = Some (JStr "hello-world-") /\
  itemData p !! "fieldData" = Some (JObj (create_fieldData p)) /\
  requests (handler "create_collection_item" (JObj o)) =
    [mkRequest
       ("https://api.webflow.com/v2/collections/" ++ Create.collectionId p ++ "/items")
       (mkInit (Some "POST") (Some (JSON_stringify (JObj (itemData p)) 0))
          (Some (default_headers WEBFLOW_API_TOKEN)))] /\
  toLowerCase "Hello World!" = "hello world!" /\
  slugify "Hello World!" = "hello-world-" /\
  forall n, slug_alphabet (slugify n) /\ no_double_hyphen (slugify n).
Proof.
  intros Hp Hname Hslug Hfd.
  destruct (parse_create_inr o p Hp) as (_ & Hn & Hs & Hf).
  assert (Create.name p = "Hello World!") as En by congruence.
  assert (Create.slug p = None) as Es.
  { destruct (Create.slug p) as [s|]; [|done].
    unfold omitted in Hslug. by rewrite Hs in Hslug. }
  split; [|split; [done|split; [by apply create_request|]]].
  - unfold create_fieldData. rewrite Es, En.
    destruct (Create.fieldData p) as [f|]; [|done].
    destruct Hf as (fd & Hofd & ->). unfold spread.
    rewrite lookup_union_r; [done|].
    rewrite lookup_delete_ne; [by apply Hfd|done].
  - split; [done|]. split; [done|]. intros n.
    split; [apply slugify_alphabet|apply slugify_no_double_hyphen].
Qed.

(** C3: when the fieldData argument of [create_collection_item] holds a
    name or slug key, the payload carries the caller's value for that key.
    The payload's fieldData is the caller's fieldData laid over the object
    holding the top-level name and the given or derived slug, and it is
    what the request body serialises. *)
Theorem C3_caller_fieldData_wins
    (o fd : gmap string JsValue) (p : Create.t) (k : string) (v : JsValue) :
  parse CreateCollectionItemSchema (JObj o) = inr p ->
  o !! "fieldData" = Some (JObj fd) ->
  k = "name" \/ k = "slug" ->
  fd !! k = Some v ->
  create_fieldData p =
    delete "__proto__" fd ∪
      <["slug" := JStr (slug_or_default (Create.slug p) (Create.name p))]>
        (<["name" := JStr (Create.name p)]> ∅) /\
  create_fieldData p !! k = Some v /\
  itemData p !! "fieldData" = Some (JObj (create_fieldData p)) /\
  requests (handler "create_collection_item" (JObj o)) =
    [mkRequest
       ("https://api.webflow.com/v2/collections/" ++ Create.collectionId p ++ "/items")
       (mkInit (Some "POST") (Some (JSON_stringify (JObj (itemData p)) 0))
          (Some (default_headers WEBFLOW_API_TOKEN)))].
Proof.
  intros Hp Hofd Hk Hv.
  destruct (parse_create_inr o p Hp) as (_ & _ & _ & Hf).
  assert (Create.fieldData p = Some (delete "__proto__" fd)) as Ef.
  { destruct (Create.fieldData p) as [f|].
    - destruct Hf as (fd' & Hofd' & ->). congruence.
    - unfold omitted in Hf. by rewrite Hofd in Hf. }
  assert (create_fieldData p =
    delete "__proto__" fd ∪
      <["slug" := JStr (slug_or_default (Create.slug p) (Create.name p))]>
        (<["name" := JStr (Create.name p)]> ∅)) as E.
  { unfold create_fieldData. by rewrite Ef. }
  split; [done|]. split; [|split; [done|by apply create_request]].
  rewrite E. apply lookup_union_Some_l.
  rewrite lookup_delete_ne; [done|]. by destruct Hk as [-> | ->].
Qed.

Lemma updateData_lookup (p : Update.t) :
  updateData p !! "isDraft" = JBool <$> Update.isDraft p /\
  updateData p !! "isArchived" = JBool <$> Update.isArchived p /\
  updateData p !! "fieldData" =
    (if truthy (Update.name p) || truthy (Update.slug p)
        || bool_decide (is_Some (Update.fieldData p))
     then Some (JObj (update_fieldData p)) else None).
Proof.
  unfold updateData.
  destruct (truthy (Update.name p) || truthy (Update.slug p)
            || bool_decide (is_Some (Update.fieldData p))),
    (Update.isDraft p), (Update.isArchived p); by simplify_map_eq.
Qed.

Lemma updateData_dom (p : Update.t) :
  dom (updateData p) ⊆ {["fieldData"; "isDraft"; "isArchived"]}.
Proof.
  unfold updateData.
  destruct (truthy (Update.name p) || truthy (Update.slug p)
            || bool_decide (is_Some (Update.fieldData p))),
    (Update.isDraft p), (Update.isArchived p);
    rewrite ?dom_insert_L, ?dom_empty_L; set_unfold; intros x; tauto.
Qed.

Lemma update_request (o : gmap string JsValue) (p : Update.t) :
  parse UpdateCollectionItemSchema (JObj o) = inr p ->
  requests (handler "update_collection_item" (JObj o)) =
    [mkRequest
       ("https://api.webflow.com/v2/collections/" ++ Update.collectionId p
          ++ "/items/" ++ Update.itemId p)
       (mkInit (Some "PATCH") (Some (JSON_stringify (JObj (updateData p)) 0))
          (Some (default_headers WEBFLOW_API_TOKEN)))].
Proof.
  intros Hp. unfold call_tool.
  change (switch_case "update_collection_item") with (Some update_collection_item).
  cbn [case_body]. unfold parse_or_throw. rewrite Hp, bind_ret_l.
  unfold updateCollectionItem. rewrite requests_single; [done|].
  intros v. by eexists.
Qed.

(** C4: an [update_collection_item] call that gives only collectionId and
    itemId validates to parameters with every optional field absent, the
    update object stays empty (no fieldData, isDraft or isArchived key),
    and the PATCH request serialises that empty object. In general the
    update object has no other keys than these three, isDraft and
    isArchived are present exactly when the parameter is, and no default
    is ever put in their place. *)
Theorem C4_update_without_optional_fields (o : gmap string JsValue) (c i : string) :
  o !! "collectionId" = Some (JStr c) ->
  o !! "itemId" = Some (JStr i) ->
  omitted o "name" -> omitted o "slug" -> omitted o "fieldData" ->
  omitted o "isDraft" -> omitted o "isArchived" ->
  parse UpdateCollectionItemSchema (JObj o)
    = inr (Update.mk c i None None None None None) /\
  updateData (Update.mk c i None None None None None) = ∅ /\
  requests (handler "update_collection_item" (JObj o)) =
    [mkRequest
       ("https://api.webflow.com/v2/collections/" ++ c ++ "/items/" ++ i)
       (mkInit (Some "PATCH") (Some (JSON_stringify (JObj ∅) 0))
          (Some (default_headers WEBFLOW_API_TOKEN)))] /\
  forall p : Update.t,
    updateData p !! "isDraft" = JBool <$> Update.isDraft p /\
    updateData p !! "isArchived" = JBool <$> Update.isArchived p /\
    updateData p !! "fieldData" =
      (if truthy (Update.name p) || truthy (Update.slug p)
          || bool_decide (is_Some (Update.fieldData p))
       then Some (JObj (update_fieldData p)) else None) /\
    dom (updateData p) ⊆ {["fieldData"; "isDraft"; "isArchived"]}.
Proof.
  intros Hc Hi Hn Hs Hf Hd Ha.
  pose proof (parse_update_minimal o c i Hc Hi Hn Hs Hf Hd Ha) as Hp.
  split; [done|]. split; [done|]. split; [by rewrite (update_request _ _ Hp)|].
  intros p. destruct (updateData_lookup p) as (H1 & H2 & H3).
  split; [done|]. split; [done|]. split; [done|]. apply updateData_dom.
Qed.

(** C5: when limit and offset are omitted from a [get_collection_items]
    call, validation yields limit 10 and offset 0, and the one request
    sent is a GET (no method given to fetch, no body) of
    /collections/<id>/items?limit=10&offset=0. *)
Theorem C5_default_limit_and_offset (o : gmap string JsValue) (c : string) :
  o !! "collectionId" = Some (JStr c) ->
  omitted o "limit" -> omitted o "offset" ->
  parse GetCollectionItemsSchema (JObj o) = inr (Items.mk c 10 0) /\
  requests (handler "get_collection_items" (JObj o)) =
    [mkRequest
       ("https://api.webflow.com/v2/collections/" ++ c ++ "/items?limit=10&offset=0")
       (mkInit None None (Some (default_headers WEBFLOW_API_TOKEN)))] /\
  Forall (fun r => http_method (init r) = "GET")
         (requests (handler "get_collection_items" (JObj o))).
Proof.
  intros Hc Hl Ho. pose proof (parse_items_defaults o c Hc Hl Ho) as Hp.
  split; [done|].
  cut (requests (handler "get_collection_items" (JObj o)) =
    [mkRequest
       ("https://api.webflow.com/v2/collections/" ++ c ++ "/items?limit=10&offset=0")
       (mkInit None None (Some (default_headers WEBFLOW_API_TOKEN)))]).
  { intros ->. split; [done|]. by repeat constructor. }
  unfold call_tool.
  change (switch_case "get_collection_items") with (Some get_collection_items).
  cbn [case_body]. unfold parse_or_throw. rewrite Hp, bind_ret_l.
  unfold getCollectionItems. rewrite requests_single; [done|].
  intros v. by eexists.
Qed.

End Properties.

(** ** The catalogue and the switch *)

(** C8: the names returned by "list tools" are the case labels of the
    dispatch switch, in the same order; there are eight, all different,
    and a name is in the catalogue exactly when the switch has a case for
    it (it does not fall to [default]). *)
Theorem C8_catalog_matches_dispatch :
  map name list_tools = map fst case_labels /\
  length list_tools = 8%nat /\
  NoDup (map name list_tools) /\
  forall n, In n (map name list_tools) <-> is_Some (switch_case n).
Proof.
  split; [done|]. split; [done|]. split.
  { by apply (bool_decide_unpack _). }
  intros n. unfold list_tools. rewrite catalog_labels. split.
  - intros Hin. destruct (switch_case n) eqn:E; [by eexists|].
    by apply switch_case_default in E.
  - intros [c Hc]. apply switch_case_label in Hc.
    apply in_map_iff. by exists (n, c).
Qed.

(** ** The update object *)

(** How [updateData] treats empty strings, absent fields and the two
    flags. *)
Lemma updateData_presence
    (c i : string) (n s : option string) (fd : option (gmap string JsValue))
    (d a : option bool) (b : bool) :
  updateData (Update.mk c i (Some "") s fd d a)
    = updateData (Update.mk c i None s fd d a) /\
  updateData (Update.mk c i n (Some "") fd d a)
    = updateData (Update.mk c i n None fd d a) /\
  update_fieldData (Update.mk c i (Some "") s None d a) !! "name" = None /\
  update_fieldData (Update.mk c i n (Some "") None d a) !! "slug" = None /\
  updateData (Update.mk c i n s fd d a) !! "fieldData"
    = (if truthy n || truthy s || bool_decide (is_Some fd)
       then Some (JObj (update_fieldData (Update.mk c i n s fd d a)))
       else None) /\
  updateData (Update.mk c i (Some "") (Some "") None d a) !! "fieldData" = None /\
  updateData (Update.mk c i n s fd (Some b) a) !! "isDraft" = Some (JBool b) /\
  updateData (Update.mk c i n s fd d (Some b)) !! "isArchived" = Some (JBool b) /\
  updateData (Update.mk c i n s fd (Some false) (Some false))
    = <["isArchived" := JBool false]>
        (<["isDraft" := JBool false]>
           (updateData (Update.mk c i n s fd None None))) /\
  updateData (Update.mk c i n s fd None a) !! "isDraft" = None /\
  updateData (Update.mk c i n s fd d None) !! "isArchived" = None.
Proof.
  unfold updateData, update_fieldData, set_if_truthy. cbn [Update.name Update.slug
    Update.fieldData Update.isDraft Update.isArchived].
  repeat split.
  - destruct s as [[|? ?]|]; by cbn.
  - destruct n as [[|? ?]|]; by cbn.
  - destruct (truthy n || truthy s || bool_decide (is_Some fd)), d, a;
      by simplify_map_eq.
  - destruct d, a; by simplify_map_eq.
  - destruct (truthy n || truthy s || bool_decide (is_Some fd)), a;
      by simplify_map_eq.
  - by simplify_map_eq.
  - destruct (truthy n || truthy s || bool_decide (is_Some fd)), a;
      by simplify_map_eq.
  - destruct (truthy n || truthy s || bool_decide (is_Some fd)), d;
      by simplify_map_eq.
Qed.

(** Every key of the fieldData object of an update: the caller's
    fieldData first, then a truthy slug, then a truthy name. *)
Lemma update_fieldData_key
    (c i : string) (n s : option string) (fd : option (gmap string JsValue))
    (d a : option bool) (k : string) :
  update_fieldData (Update.mk c i n s fd d a) !! k
    = match fd ≫= (.!! k) with
      | Some v => Some v
      | None =>
          if decide (k = "slug") then (if truthy s then JStr <$> s else None)
          else if decide (k = "name") then (if truthy n then JStr <$> n else None)
          else None
      end.
Proof.
  unfold update_fieldData.
  cbn [Update.name Update.slug Update.fieldData].
  assert (forall m : gmap string JsValue,
            m = set_if_truthy "slug" s (set_if_truthy "name" n ∅) ->
            m !! k =
              if decide (k = "slug") then (if truthy s then JStr <$> s else None)
              else if decide (k = "name") then (if truthy n then JStr <$> n else None)
              else None) as Hbase.
  { intros m ->. unfold set_if_truthy.
    destruct s as [s|], n as [n|];
      repeat match goal with |- context [truthy ?x] => destruct (truthy x) end;
      repeat case_decide; subst; by simplify_map_eq. }
  destruct fd as [f|]; cbn [mbind option_bind spread]; [|by apply Hbase].
  destruct (f !! k) as [v|] eqn:E.
  - by apply lookup_union_Some_l.
  - rewrite lookup_union_r by done. by apply Hbase.
Qed.

(** C10: in [updateData], name and slug count as present when truthy: a
    non-empty name or slug is written into fieldData (under the caller's
    fieldData, whose keys win), an empty string gives the same update
    object as an absent field and leaves no key of its own in fieldData;
    the fieldData key exists exactly when name or slug is truthy or a
    fieldData object is given. isDraft and isArchived are copied whenever
    they are defined, whatever their value, and are absent otherwise. *)
Theorem C10_update_presence_by_truthiness
    (c i : string) (n s : option string) (fd : option (gmap string JsValue))
    (d a : option bool) (b : bool) (ch : ascii) (x k : string) :
  updateData (Update.mk c i (Some "") s fd d a)
    = updateData (Update.mk c i None s fd d a) /\
  updateData (Update.mk c i n (Some "") fd d a)
    = updateData (Update.mk c i n None fd d a) /\
  update_fieldData (Update.mk c i (Some "") s None d a) !! "name" = None /\
  update_fieldData (Update.mk c i n (Some "") None d a) !! "slug" = None /\
  updateData (Update.mk c i n s fd d a) !! "fieldData"
    = (if truthy n || truthy s || bool_decide (is_Some fd)
       then Some (JObj (update_fieldData (Update.mk c i n s fd d a)))
       else None) /\
  updateData (Update.mk c i (Some "") (Some "") None d a) !! "fieldData" = None /\
  updateData (Update.mk c i n s fd (Some b) a) !! "isDraft" = Some (JBool b) /\
  updateData (Update.mk c i n s fd d (Some b)) !! "isArchived" = Some (JBool b) /\
  updateData (Update.mk c i n s fd (Some false) (Some false))
    = <["isArchived" := JBool false]>
        (<["isDraft" := JBool false]>
           (updateData (Update.mk c i n s fd None None))) /\
  updateData (Update.mk c i n s fd None a) !! "isDraft" = None /\
  updateData (Update.mk c i n s fd d None) !! "isArchived" = None /\
  update_fieldData (Update.mk c i (Some (String ch x)) s None d a) !! "name"
    = Some (JStr (String ch x)) /\
  update_fieldData (Update.mk c i n (Some (String ch x)) None d a) !! "slug"
    = Some (JStr (String ch x)) /\
  updateData (Update.mk c i (Some (String ch x)) s fd d a) !! "fieldData"
    = Some (JObj (update_fieldData (Update.mk c i (Some (String ch x)) s fd d a))) /\
  updateData (Update.mk c i n (Some (String ch x)) fd d a) !! "fieldData"
    = Some (JObj (update_fieldData (Update.mk c i n (Some (String ch x)) fd d a))) /\
  update_fieldData (Update.mk c i n s fd d a) !! k
    = match fd ≫= (.!! k) with
      | Some v => Some v
      | None =>
          if decide (k = "slug") then (if truthy s then JStr <$> s else None)
          else if decide (k = "name") then (if truthy n then JStr <$> n else None)
          else None
      end.
Proof.
  destruct (updateData_presence c i n s fd d a b)
    as (H1 & H2 & H3 & H4 & H5 & H6 & H7 & H8 & H9 & H10 & H11).
  do 11 (split; [assumption|]).
  split; [by rewrite update_fieldData_key|].
  split; [rewrite update_fieldData_key; by destruct (truthy n)|].
  split; [by destruct (updateData_lookup (Update.mk c i (Some (String ch x)) s fd d a))
             as (_ & _ & ->)|].
  split; [|apply update_fieldData_key].
  destruct (updateData_lookup (Update.mk c i n (Some (String ch x)) fd d a))
    as (_ & _ & ->).
  cbn [Update.name Update.slug Update.fieldData truthy].
  by rewrite orb_true_r.
Qed.

(** ** Concrete calls *)

Example slugify_plain : slugify "Foo" = "foo".
Proof. reflexivity. Qed.

Example slugify_outer_runs : slugify "  My  2nd Post?! " = "-my-2nd-post-".
Proof. reflexivity. Qed.

(** An explicit, non-empty slug is kept as given. *)
Example create_explicit_slug :
  create_fieldData (Create.mk "c1" "Hello World!" (Some "My_Slug") None false false)
    !! "slug" = Some (JStr "My_Slug").
Proof. reflexivity. Qed.

(** All failing fields are reported, in the order of the schema. *)
Example create_three_issues :
  sample_call 200 "{}" "create_collection_item"
    (JObj (obj [("collectionId", JNum 1); ("isDraft", JNull)]))
  = ([], inl (McpError InvalidParams
       "Invalid parameters: collectionId: Expected string, received number, name: Required, isDraft: Expected boolean, received null")).
Proof. reflexivity. Qed.

(** The path of an array element is "<key>.<index>". *)
Example publish_bad_element :
  sample_call 200 "{}" "publish_collection_items"
    (JObj (obj [("collectionId", JStr "c1"); ("itemIds", JArr [JStr "a"; JNum 7])]))
  = ([], inl (McpError InvalidParams
       "Invalid parameters: itemIds.1: Expected string, received number")).
Proof. reflexivity. Qed.

(** A failed DELETE: one request, then the internal error. *)
Example delete_server_error :
  sample_call 500 "oops" "delete_collection_item"
    (JObj (obj [("collectionId", JStr "c1"); ("itemId", JStr "i1")]))
  = ([mkRequest "https://api.webflow.com/v2/collections/c1/items/i1"
        (mkInit (Some "DELETE") None (Some (default_headers "secret")))],
     inl (McpError InternalError
       "Error executing delete_collection_item: Webflow API error (500): oops")).
Proof. reflexivity. Qed.

(** An empty name is a valid string for the schema and is then dropped
    by the handler; [isDraft: false] is kept. *)
Example update_empty_name_and_false_flag :
  parse UpdateCollectionItemSchema
    (JObj (obj [("collectionId", JStr "c1"); ("itemId", JStr "i1");
                ("name", JStr ""); ("isDraft", JBool false)]))
    = inr (Update.mk "c1" "i1" (Some "") None None (Some false) None) /\
  updateData (Update.mk "c1" "i1" (Some "") None None (Some false) None)
    = {["isDraft" := JBool false]}.
Proof. split; reflexivity. Qed.

(** C1, the value "hello-world": for the arguments
    {collectionId: "c1", name: "Hello World!"} the slug of the payload is
    not "hello-world". *)
Lemma C1_slug_is_not_hello_world :
  parse CreateCollectionItemSchema
    (JObj (obj [("collectionId", JStr "c1"); ("name", JStr "Hello World!")]))
    = inr (Create.mk "c1" "Hello World!" None None false false) /\
  create_fieldData (Create.mk "c1" "Hello World!" None None false false) !! "slug"
    <> Some (JStr "hello-world").
Proof. split; [reflexivity|]. vm_compute. intros [=]. Qed.

(** C1 at the call {collectionId: "c1", name: "Hello World!"}. *)
Lemma C1_witness :
  create_fieldData (Create.mk "c1" "Hello World!" None None false false) !! "slug"
    = Some (JStr "hello-world-").
Proof.
  refine (proj1 (C1_slug_of_hello_world "secret" (sample_fetch 200 "{}")
                   sample_stringify sample_message
                   (obj [("collectionId", JStr "c1"); ("name", JStr "Hello World!")])
                   (Create.mk "c1" "Hello World!" None None false false)
                   _ _ _ _)).
  - reflexivity.
  - reflexivity.
  - reflexivity.
  - intros fd H. vm_compute in H. discriminate H.
Defined.

(** C2 at the call of "unknown_tool". *)
Lemma C2_witness :
  sample_call 200 "{}" "unknown_tool" (JObj ∅)
    = ([], inl (McpError InternalError
                  "Error executing unknown_tool: MCP error -32601: Unknown tool: unknown_tool")).
Proof.
  refine (proj1 (C2_unknown_tool_rethrown_as_internal_error "secret"
                   (sample_fetch 200 "{}") sample_stringify sample_message
                   "unknown_tool" (JObj ∅) _)).
  simpl. intuition discriminate.
Defined.

(** C3 at the call {collectionId: "c1", name: "Foo", fieldData: {slug: "custom"}}. *)
Lemma C3_witness :
  create_fieldData
    (Create.mk "c1" "Foo" None (Some (obj [("slug", JStr "custom")])) false false)
    !! "slug" = Some (JStr "custom").
Proof.
  refine (proj1 (proj2 (C3_caller_fieldData_wins "secret" (sample_fetch 200 "{}")
                   sample_stringify sample_message
                   (obj [("collectionId", JStr "c1"); ("name", JStr "Foo");
                         ("fieldData", JObj (obj [("slug", JStr "custom")]))])
                   (obj [("slug", JStr "custom")])
                   (Create.mk "c1" "Foo" None (Some (obj [("slug", JStr "custom")]))
                      false false)
                   "slug" (JStr "custom") _ _ _ _))).
  - reflexivity.
  - reflexivity.
  - right. reflexivity.
  - reflexivity.
Defined.

(** C4 at the call {collectionId: "c1", itemId: "i1"}. *)
Lemma C4_witness :
  requests (sample_call 200 "{}" "update_collection_item"
              (JObj (obj [("collectionId", JStr "c1"); ("itemId", JStr "i1")])))
    = [mkRequest "https://api.webflow.com/v2/collections/c1/items/i1"
         (mkInit (Some "PATCH") (Some "{}") (Some (default_headers "secret")))].
Proof.
  refine (proj1 (proj2 (proj2 (C4_update_without_optional_fields "secret"
                   (sample_fetch 200 "{}") sample_stringify sample_message
                   (obj [("collectionId", JStr "c1"); ("itemId", JStr "i1")])
                   "c1" "i1" _ _ _ _ _ _ _)))); reflexivity.
Defined.

(** C5 at the call {collectionId: "c1"}. *)
Lemma C5_witness :
  requests (sample_call 200 "{}" "get_collection_items"
              (JObj (obj [("collectionId", JStr "c1")])))
    = [mkRequest "https://api.webflow.com/v2/collections/c1/items?limit=10&offset=0"
         (mkInit None None (Some (default_headers "secret")))].
Proof.
  refine (proj1 (proj2 (C5_default_limit_and_offset "secret"
                   (sample_fetch 200 "{}") sample_stringify sample_message
                   (obj [("collectionId", JStr "c1")]) "c1" _ _ _))); reflexivity.
Defined.

(** C6 at [get_sites] against a remote side answering 404 "Not Found". *)
Lemma C6_witness :
  outcome (sample_call 404 "Not Found" "get_sites" (JObj ∅))
    = inl (McpError InternalError
             "Error executing get_sites: Webflow API error (404): Not Found") /\
  includes "Error executing get_sites: Webflow API error (404): Not Found" "404" /\
  includes "Error executing get_sites: Webflow API error (404): Not Found" "Not Found".
Proof.
  destruct (C6_http_failure_is_internal_error "secret" (sample_fetch 404 "Not Found")
              sample_stringify sample_message "get_sites" (JObj ∅)
              (mkRequest "https://api.webflow.com/v2/sites"
                 (mkInit None None (Some (default_headers "secret"))))
              (mkResponse 404 "Not Found" (inr (JObj ∅))))
    as (_ & Hout & _ & Hstatus & Htext).
  - left. reflexivity.
  - reflexivity.
  - reflexivity.
  - split; [exact Hout|]. split; [exact Hstatus|exact Htext].
Defined.

(** C7 at [get_site] called with {}. *)
Lemma C7_witness :
  sample_call 200 "{}" "get_site" (JObj ∅)
    = ([], inl (McpError InvalidParams "Invalid parameters: siteId: Required")) /\
  includes "Invalid parameters: siteId: Required" "siteId".
Proof.
  destruct (C7_validation_failure_is_invalid_params "secret" (sample_fetch 200 "{}")
              sample_stringify sample_message "get_site" get_site (JObj ∅)
              [mkIssue [PKey "siteId"] "Required"])
    as (Hcall & _ & Hsite & _).
  - reflexivity.
  - reflexivity.
  - split; [exact Hcall|]. exact (proj1 (Hsite eq_refl ∅ eq_refl)).
Defined.

(** C7, the part on [get_site]: called with no arguments at all, the
    message is "Invalid parameters: : Required", in which "siteId" does
    not occur. *)
Lemma C7_get_site_without_arguments_lacks_siteId :
  sample_call 200 "{}" "get_site" JUndefined
    = ([], inl (McpError InvalidParams "Invalid parameters: : Required")) /\
  ~ includes "Invalid parameters: : Required" "siteId".
Proof.
  split; [reflexivity|]. intros H. apply includes_includesb in H.
  vm_compute in H. discriminate H.
Qed.

(** * Further properties of the code *)

(** ** More on slugs *)

Lemma no_double_hyphen_cons (c : ascii) (s : string) :
  no_double_hyphen (String c s) <->
  no_double_hyphen s /\ ~ (c = "-"%char /\ exists s', s = String "-" s').
Proof.
  destruct c as [[] [] [] [] [] [] [] []];
    try (cbn [no_double_hyphen]; split; [intros H; split; [exact H|intros [? _]; discriminate]|tauto]).
  destruct s as [|c' s'].
  - cbn [no_double_hyphen]. split; [intros _; split; [done|]|done].
    intros [_ [? ?]]. discriminate.
  - destruct c' as [[] [] [] [] [] [] [] []];
      try (cbn [no_double_hyphen]; split;
           [intros H; split; [exact H|intros [_ [? ?]]; discriminate]|tauto]).
    cbn [no_double_hyphen]. split; [done|]. intros [_ H]. apply H. eauto.
Qed.

Lemma lower_char_slug (c : ascii) :
  is_slug_char c = true \/ c = "-"%char -> lower_char c = c.
Proof.
  intros [H| ->]; [|done].
  destruct c as [[] [] [] [] [] [] [] []]; try reflexivity; discriminate H.
Qed.

Lemma toLowerCase_fixed (s : string) : slug_alphabet s -> toLowerCase s = s.
Proof.
  unfold slug_alphabet. induction s as [|c s IH]; [done|].
  cbn [list_ascii_of_string toLowerCase]. intros H.
  apply Forall_cons in H as [Hc Hs]. by rewrite lower_char_slug, IH.
Qed.

Lemma replace_runs_fixed (s : string) (b : bool) :
  slug_alphabet s -> no_double_hyphen s ->
  (b = true -> forall s', s <> String "-" s') ->
  replace_runs b s = s.
Proof.
  unfold slug_alphabet. revert b. induction s as [|c s IH]; intros b; [done|].
  cbn [list_ascii_of_string replace_runs]. intros Ha Hn Hb.
  apply Forall_cons in Ha as [Hc Hs].
  apply no_double_hyphen_cons in Hn as [Hn Hcc].
  destruct Hc as [Hc| ->].
  - rewrite Hc. f_equal. apply IH; [done|done|discriminate].
  - change (is_slug_char "-") with false. cbn iota.
    destruct b; [exfalso; by eapply Hb|].
    f_equal. apply IH; [done|done|]. intros _ s' ->. apply Hcc. eauto.
Qed.

Lemma replace_runs_length (s : string) (b : bool) :
  (String.length (replace_runs b s) <= String.length s)%nat.
Proof.
  revert b. induction s as [|c s IH]; intros b; [done|].
  cbn [replace_runs String.length].
  destruct (is_slug_char c); [|destruct b]; cbn [String.length];
    [specialize (IH false)|specialize (IH true)|specialize (IH true)]; lia.
Qed.

Lemma toLowerCase_length (s : string) : String.length (toLowerCase s) = String.length s.
Proof. induction s as [|c s IH]; [done|]. cbn [toLowerCase String.length]. by rewrite IH. Qed.

(** X1: the strings that [slugify] leaves unchanged are exactly the
    strings that already have the shape of a slug: characters of a-z, 0-9
    and "-" only, and never two hyphens in a row. *)
Theorem slugify_fixed_points (n : string) :
  slugify n = n <-> slug_alphabet n /\ no_double_hyphen n.
Proof.
  split.
  - intros <-. split; [apply slugify_alphabet|apply slugify_no_double_hyphen].
  - intros [Ha Hn]. unfold slugify. rewrite toLowerCase_fixed by done.
    apply replace_runs_fixed; [done|done|discriminate].
Qed.

(** X2: deriving a slug twice gives the same as deriving it once, and
    the slug is empty only for the empty name; for a name of ASCII
    characters the slug is never longer than the name. *)
Theorem slugify_idempotent_short_nonempty (n : string) :
  slugify (slugify n) = slugify n /\
  (slugify n = "" <-> n = "") /\
  (ascii_only n -> (strlen (slugify n) <= strlen n)%nat).
Proof.
  split; [|split].
  - apply slugify_fixed_points.
    split; [apply slugify_alphabet|apply slugify_no_double_hyphen].
  - split; [|by intros ->].
    unfold slugify. destruct n as [|c n]; [done|].
    cbn [toLowerCase replace_runs]. by destruct (is_slug_char (lower_char c)).
  - intros _. unfold strlen, slugify.
    etransitivity; [apply replace_runs_length|]. by rewrite toLowerCase_length.
Qed.

(** ** The handler as a whole *)

Section Handler.

Variable WEBFLOW_API_TOKEN : string.
Variable fetch : string -> RequestInit -> string + Response.
Variable JSON_stringify : JsValue -> nat -> string.
Variable McpError_message : ErrorCode -> string -> string.

Local Abbreviation api := (webflowAPI WEBFLOW_API_TOKEN).
Local Abbreviation handler := (call_tool WEBFLOW_API_TOKEN fetch JSON_stringify McpError_message).
Local Abbreviation body_of := (case_body WEBFLOW_API_TOKEN fetch JSON_stringify).
Local Abbreviation send := (makeRequest fetch).

Lemma run_request (n endpoint : string) (options : RequestInit)
    (k : JsValue -> list TextContent) :
  try_catch (bind (send api endpoint options) (fun v => ret (k v)))
            (on_error McpError_message n)
    = ([request_of api endpoint options],
       after_request fetch n (request_of api endpoint options) k).
Proof.
  rewrite makeRequest_eq. unfold after_request.
  destruct (fetch _ _) as [msg|response]; [done|].
  destruct (ok response); [|done].
  by destruct (json response).
Qed.

(** Every case either throws the [ZodError] of its schema, or hands one
    request to [makeRequest] (with the method and body of its row of the
    operations table and no headers of its own) and wraps the answer in
    one text block. *)
Lemma case_body_request (c : ToolCase) (args : JsValue) :
  (exists errors, schema_errors c args = Some errors /\
                  body_of c args = throw (ZodError errors)) \/
  (schema_errors c args = None /\
   exists endpoint options k rest,
     body_of c args
       = bind (send api endpoint options) (fun v => ret (text_result (k v))) /\
     headers options = None /\
     method options = tool_method c /\
     bool_decide (is_Some (body options)) = sends_body c /\
     endpoint = "/" ++ rest).
Proof.
  destruct c; cbn [case_body schema_errors tool_method sends_body];
    unfold parse_or_throw;
    try match goal with
        | |- context [parse ?S args] =>
            destruct (parse S args) as [e|p]; [left; by exists e|rewrite bind_ret_l]
        end;
    (right; split; [done|]; do 4 eexists;
     split; [reflexivity|]; split; [done|]; split; [done|]; split; [done|];
     reflexivity).
Qed.

Lemma call_tool_run (n : string) (args : JsValue) :
  (switch_case n = None /\
   handler n args =
     ([], inl (McpError InternalError
                 ("Error executing " ++ n ++ ": "
                    ++ McpError_message MethodNotFound ("Unknown tool: " ++ n))))) \/
  (exists c errors,
     switch_case n = Some c /\ schema_errors c args = Some errors /\
     handler n args =
       ([], inl (McpError InvalidParams
                   ("Invalid parameters: " ++ join ", " (map format_issue errors))))) \/
  (exists c endpoint options k rest,
     switch_case n = Some c /\ schema_errors c args = None /\
     headers options = None /\
     method options = tool_method c /\
     bool_decide (is_Some (body options)) = sends_body c /\
     endpoint = "/" ++ rest /\
     handler n args =
       ([request_of api endpoint options],
        after_request fetch n (request_of api endpoint options)
          (fun v => text_result (k v)))).
Proof.
  unfold call_tool. destruct (switch_case n) as [c|]; [|by left].
  right. destruct (case_body_request c args)
    as [(e & He & ->)|(Hnone & ep & o & k & rest & -> & Ho & Hm & Hb & Hep)].
  - left. by exists c, e.
  - right. exists c, ep, o, k, rest. do 6 (split; [done|]).
    apply (run_request n ep o (fun v => text_result (k v))).
Qed.

(** X3: a call sends at most one request, and it sends none exactly when
    the tool name is unknown or the arguments fail the schema of the
    tool: validation always comes before the network. *)
Theorem at_most_one_request (n : string) (args : JsValue) :
  (length (requests (handler n args)) <= 1)%nat /\
  (requests (handler n args) = [] <->
   switch_case n = None \/
   exists c errors, switch_case n = Some c /\ schema_errors c args = Some errors).
Proof.
  destruct (call_tool_run n args)
    as [[Hn ->]|[(c & e & Hc & He & ->)|(c & ep & o & k & r & Hc & He & _ & _ & _ & _ & ->)]];
    cbn [requests fst length].
  - split; [lia|]. split; [by left|done].
  - split; [lia|]. split; [right; by exists c, e|done].
  - split; [lia|]. split; [done|].
    intros [Hn|(c' & e' & Hc' & He')]; congruence.
Qed.

(** X4: whatever the name and the arguments, a call ends in one of three
    ways: a result made of exactly one block of type "text"; an
    invalid-params error, only when the arguments failed the schema and
    nothing was sent; or an internal error whose message starts with
    "Error executing <name>: ". No other error code or exception class
    reaches the caller. *)
Theorem outcome_classification (n : string) (args : JsValue) :
  match outcome (handler n args) with
  | inr result => exists s, result = [mkContent "text" s]
  | inl (McpError InvalidParams m) =>
      requests (handler n args) = [] /\
      exists c errors, switch_case n = Some c /\ schema_errors c args = Some errors
  | inl (McpError InternalError m) =>
      exists detail, m = "Error executing " ++ n ++ ": " ++ detail
  | inl _ => False
  end.
Proof.
  destruct (call_tool_run n args)
    as [[Hn ->]|[(c & e & Hc & He & ->)|(c & ep & o & k & r & Hc & He & _ & _ & _ & _ & ->)]];
    cbn [outcome snd requests fst].
  - by eexists.
  - split; [done|]. by exists c, e.
  - unfold after_request. destruct (fetch _ _) as [msg|response]; [by eexists|].
    destruct (ok response); [|by eexists].
    destruct (json response) as [msg|v]; by eexists.
Qed.

(** X5: when [fetch] rejects (the remote side cannot be reached), the
    call ends, after that one request, in an internal error carrying the
    tool name and the message of the rejection. *)
Theorem network_failure_is_internal_error
    (n : string) (args : JsValue) (req : Request) (msg : string) :
  In req (requests (handler n args)) ->
  fetch (url req) (init req) = inl msg ->
  handler n args =
    ([req], inl (McpError InternalError ("Error executing " ++ n ++ ": " ++ msg))).
Proof.
  intros Hin Hf.
  destruct (call_tool_run n args)
    as [[Hn Heq]|[(c & e & Hc & He & Heq)|(c & ep & o & k & r & Hc & He & _ & _ & _ & _ & Heq)]];
    rewrite Heq in Hin |- *; cbn [requests fst] in Hin;
    [destruct Hin|destruct Hin|destruct Hin as [<-|[]]].
  unfold after_request. by rewrite Hf.
Qed.

(** X6: when the status is a success but [json()] rejects (a body that
    is empty or not JSON, as after a DELETE answered without content), the
    call ends in an internal error carrying the message of that rejection,
    for every tool; the status and the body text play no part. *)
Theorem unreadable_body_is_internal_error
    (n : string) (args : JsValue) (req : Request) (response : Response) (msg : string) :
  In req (requests (handler n args)) ->
  fetch (url req) (init req) = inr response ->
  ok response = true ->
  json response = inl msg ->
  handler n args =
    ([req], inl (McpError InternalError ("Error executing " ++ n ++ ": " ++ msg))).
Proof.
  intros Hin Hf Hok Hj.
  destruct (call_tool_run n args)
    as [[Hn Heq]|[(c & e & Hc & He & Heq)|(c & ep & o & k & r & Hc & He & _ & _ & _ & _ & Heq)]];
    rewrite Heq in Hin |- *; cbn [requests fst] in Hin;
    [destruct Hin|destruct Hin|destruct Hin as [<-|[]]].
  unfold after_request. by rewrite Hf, Hok, Hj.
Qed.

(** X7: every request of a call goes to a path under
    "https://api.webflow.com/v2/" and follows the row of its tool: the
    four get_ tools pass no method (GET) and no body, delete passes
    DELETE and no body, create and publish pass POST and update PATCH,
    each with a body. *)
Theorem request_follows_operations_table (n : string) (args : JsValue) (r : Request) :
  In r (requests (handler n args)) ->
  exists c rest,
    switch_case n = Some c /\
    method (init r) = tool_method c /\
    bool_decide (is_Some (body (init r))) = sends_body c /\
    url r = "https://api.webflow.com/v2/" ++ rest.
Proof.
  intros Hin.
  destruct (call_tool_run n args)
    as [[Hn Heq]|[(c & e & Hc & He & Heq)|(c & ep & o & k & rest & Hc & He & _ & Hm & Hb & -> & Heq)]];
    rewrite Heq in Hin; cbn [requests fst] in Hin;
    [destruct Hin|destruct Hin|destruct Hin as [<-|[]]].
  exists c, rest. by repeat split.
Qed.

End Handler.

(** ** The catalogue and the validator *)

Lemma accepted_fap {A B} (f : FieldParser (A -> B)) (x : FieldParser A)
    (o : gmap string JsValue) (path : list PathElem) :
  accepted ((f <*> x) o path) = accepted (f o path) && accepted (x o path).
Proof. unfold fap. by destruct (f o path), (x o path). Qed.

Lemma accepted_parse_elems (path : list PathElem) (i : nat) (l : list JsValue) :
  accepted (parse_elems z_string path i l)
    = forallb (fun x => String.eqb (json_type x) "string") l.
Proof.
  revert i. induction l as [|x l IH]; intros i; [done|].
  cbn [parse_elems forallb]. rewrite <- (IH (S i)).
  destruct x, (parse_elems z_string path (S i) l); reflexivity.
Qed.

Lemma issues_of_None {A} (r : ParseResult A) : issues_of r = None <-> accepted r = true.
Proof. by destruct r. Qed.

Lemma fap_ext {A B} (f : FieldParser (A -> B)) (x : FieldParser A)
    (o o' : gmap string JsValue) (path : list PathElem) :
  f o path = f o' path -> x o path = x o' path ->
  (f <*> x) o path = (f <*> x) o' path.
Proof. unfold fap. by intros -> ->. Qed.

Lemma field_ext {A} (k : string) (t : ZodType A)
    (o o' : gmap string JsValue) (path : list PathElem) :
  o !! k = o' !! k -> field k t o path = field k t o' path.
Proof. unfold field. by intros ->. Qed.

Lemma reports_fap_l {A B} (f : FieldParser (A -> B)) (x : FieldParser A)
    (o : gmap string JsValue) (path : list PathElem) (i : ZodIssue) :
  reports (f o path) i -> reports ((f <*> x) o path) i.
Proof.
  unfold fap, reports. destruct (f o path), (x o path); try done.
  intros H. apply in_or_app. by left.
Qed.

Lemma reports_fap_r {A B} (f : FieldParser (A -> B)) (x : FieldParser A)
    (o : gmap string JsValue) (path : list PathElem) (i : ZodIssue) :
  reports (x o path) i -> reports ((f <*> x) o path) i.
Proof.
  unfold fap, reports. destruct (f o path), (x o path); try done.
  intros H. apply in_or_app. by right.
Qed.

Lemma reports_required_string (k : string) (o : gmap string JsValue) :
  omitted o k -> reports (field k z_string o []) (mkIssue [PKey k] "Required").
Proof. unfold omitted, field. intros ->. by left. Qed.

Lemma reports_required_array (k : string) (o : gmap string JsValue) :
  omitted o k -> reports (field k (z_array z_string) o []) (mkIssue [PKey k] "Required").
Proof. unfold omitted, field. intros ->. by left. Qed.

Lemma reports_issues_of {A} (r : ParseResult A) (i : ZodIssue) :
  reports r i -> exists errors, issues_of r = Some errors /\ In i errors.
Proof. destruct r as [e|a]; [|done]. intros H. by exists e. Qed.

Ltac eval_switch :=
  match goal with
  | |- context [switch_case ?n] =>
      let r := eval vm_compute in (switch_case n) in
      change (switch_case n) with r
  end.

Ltac eval_switch_in H :=
  match type of H with
  | context [switch_case ?n] =>
      let r := eval vm_compute in (switch_case n) in
      change (switch_case n) with r in H
  end.

(** X8: the input shape a tool advertises in the catalogue and the
    schema its case validates with accept the same argument objects: an
    object conforms to the advertised shape (required keys present,
    listed properties of their type, item ids all strings) exactly when
    the validator reports no issue. *)
Theorem catalogue_shape_is_validated_shape
    (t : Tool) (c : ToolCase) (o : gmap string JsValue) :
  In t tools ->
  switch_case (name t) = Some c ->
  (conforms (inputSchema t) o = true <-> schema_errors c (JObj o) = None).
Proof.
  intros Hin Hc.
  cut (conforms (inputSchema t) o
       = match schema_errors c (JObj o) with None => true | Some _ => false end).
  { intros ->. by destruct (schema_errors c (JObj o)). }
  cbn [tools In] in Hin.
  repeat (destruct Hin as [<-|Hin]); try destruct Hin;
    cbn [name] in Hc; eval_switch_in Hc; injection Hc as <-;
    cbn [schema_errors]; try reflexivity;
    match goal with
    | |- _ = match issues_of ?r with _ => _ end =>
        transitivity (accepted r); [|by destruct r]
    end;
    unfold parse, GetSiteSchema, GetCollectionsSchema, GetCollectionItemsSchema,
      CreateCollectionItemSchema, UpdateCollectionItemSchema,
      DeleteCollectionItemSchema, PublishCollectionItemsSchema, z_object;
    rewrite !accepted_fap; unfold conforms, field, fpure, arg;
    cbn [inputSchema required properties forallb prop prop_name accepted app];
    repeat match goal with
           | |- context [default JUndefined (o !! ?k)] =>
               generalize (default JUndefined (o !! k)); intros [];
               cbn; rewrite ?accepted_parse_elems, ?andb_false_r, ?andb_true_r;
               try reflexivity
           end.
Qed.

Ltac unfold_schemas :=
  unfold parse, GetSiteSchema, GetCollectionsSchema, GetCollectionItemsSchema,
    CreateCollectionItemSchema, UpdateCollectionItemSchema,
    DeleteCollectionItemSchema, PublishCollectionItemsSchema, z_object.

Section Validation.

Variable WEBFLOW_API_TOKEN : string.
Variable fetch : string -> RequestInit -> string + Response.
Variable JSON_stringify : JsValue -> nat -> string.
Variable McpError_message : ErrorCode -> string -> string.

Local Abbreviation handler := (call_tool WEBFLOW_API_TOKEN fetch JSON_stringify McpError_message).

(** X9: the whole effect of a call (request and outcome) depends on the
    argument object only through the properties the catalogue lists for
    the tool: keys outside that list are never validated, never rejected
    and never sent. *)
Theorem unlisted_arguments_are_ignored (t : Tool) (o o' : gmap string JsValue) :
  In t tools ->
  agree_on (map prop_name (properties (inputSchema t))) o o' ->
  handler (name t) (JObj o) = handler (name t) (JObj o').
Proof.
  intros Hin Hagree. cbn [tools In] in Hin.
  repeat (destruct Hin as [<-|Hin]); try destruct Hin;
    cbn [name inputSchema properties prop prop_name map] in *;
    unfold call_tool; eval_switch; cbn [case_body]; try reflexivity;
    match goal with
    | |- context [parse_or_throw ?S (JObj o)] =>
        cut (parse S (JObj o) = parse S (JObj o'));
        [unfold parse_or_throw; by intros ->|]
    end;
    unfold_schemas;
    repeat (apply fap_ext; [|apply field_ext, Hagree; cbn [In]; tauto]);
    reflexivity.
Qed.

(** X10: for every property the catalogue documents with a default
    (limit 10, offset 0, isDraft false, isArchived false), passing that
    default explicitly has the same effect as leaving the property
    out. *)
Theorem documented_default_equals_omission
    (t : Tool) (p : Property) (d : JsValue) (o : gmap string JsValue) :
  In t tools ->
  In p (properties (inputSchema t)) ->
  prop_default p = Some d ->
  handler (name t) (JObj (<[prop_name p := d]> o))
    = handler (name t) (JObj (delete (prop_name p) o)).
Proof.
  intros Hin Hp Hd. cbn [tools In] in Hin.
  repeat (destruct Hin as [<-|Hin]); try destruct Hin;
    cbn [inputSchema properties In] in Hp;
    repeat (destruct Hp as [<-|Hp]); try destruct Hp;
    try discriminate Hd;
    cbn [prop_default] in Hd; injection Hd as <-;
    cbn [name prop_name];
    unfold call_tool; eval_switch; cbn [case_body];
    match goal with
    | |- context [parse_or_throw ?S (JObj (<[?k:=?v]> o))] =>
        cut (parse S (JObj (<[k:=v]> o)) = parse S (JObj (delete k o)));
        [unfold parse_or_throw; by intros ->|]
    end;
    unfold_schemas;
    repeat (apply fap_ext;
            [|first [ apply field_ext; by rewrite lookup_insert_ne, lookup_delete_ne
                    | unfold field; by rewrite lookup_insert_eq, lookup_delete_eq ]]);
    reflexivity.
Qed.

(** X11: for every tool and every key the catalogue marks as required,
    an argument object that omits the key is rejected before any request:
    the validator reports the issue "<key>: Required", and the caller
    gets an invalid-params error whose message contains it. *)
Theorem missing_required_argument_is_named
    (t : Tool) (k : string) (o : gmap string JsValue) :
  In t tools ->
  In k (required (inputSchema t)) ->
  omitted o k ->
  exists errors,
    In (mkIssue [PKey k] "Required") errors /\
    handler (name t) (JObj o)
      = ([], inl (McpError InvalidParams
                    ("Invalid parameters: " ++ join ", " (map format_issue errors)))) /\
    includes ("Invalid parameters: " ++ join ", " (map format_issue errors))
             (k ++ ": Required").
Proof.
  intros Hin Hk Ho.
  assert (forall A (r : ParseResult A) (S : ZodType A),
            parse S (JObj o) = r -> reports r (mkIssue [PKey k] "Required") ->
            exists errors, In (mkIssue [PKey k] "Required") errors /\
                           parse_or_throw S (JObj o) = throw (ZodError errors)) as Hthrow.
  { intros A r S <- Hr. unfold parse_or_throw.
    destruct (parse S (JObj o)) as [e|a]; [|done]. by exists e. }
  cut (exists errors,
         In (mkIssue [PKey k] "Required") errors /\
         handler (name t) (JObj o)
           = ([], inl (McpError InvalidParams
                         ("Invalid parameters: " ++ join ", " (map format_issue errors))))).
  { intros (e & He & Heq). exists e. split; [done|]. split; [done|].
    apply includes_app_r, join_includes.
    change (k ++ ": Required") with (format_issue (mkIssue [PKey k] "Required")).
    by apply in_map. }
  cbn [tools In] in Hin.
  repeat (destruct Hin as [<-|Hin]); try destruct Hin;
    cbn [inputSchema required In] in Hk;
    repeat (destruct Hk as [<-|Hk]); try destruct Hk;
    cbn [name]; unfold call_tool; eval_switch; cbn [case_body];
    match goal with
    | |- context [parse_or_throw ?S (JObj o)] =>
        destruct (Hthrow _ _ S eq_refl) as (e & He & ->);
        [unfold_schemas;
         repeat first [ apply reports_fap_r;
                        solve [by apply reports_required_string
                              |by apply reports_required_array]
                      | apply reports_fap_l ]
        |by exists e]
    end.
Qed.

(** X12: arguments that are not an object (none at all, null, a string,
    a number, an array ...) are rejected by every tool but [get_sites],
    before any request, with the issue at the empty path: "Required"
    when there are no arguments, "Expected object, received <type>"
    otherwise. *)
Theorem non_object_arguments_are_rejected (n : string) (c : ToolCase) (args : JsValue) :
  switch_case n = Some c ->
  c <> get_sites ->
  (forall o, args <> JObj o) ->
  handler n args
    = ([], inl (McpError InvalidParams
                  ("Invalid parameters: : "
                     ++ match args with
                        | JUndefined => "Required"
                        | _ => "Expected object, received " ++ parsed_type args
                        end))).
Proof.
  intros Hc Hne Hargs. unfold call_tool. rewrite Hc.
  destruct c; try done; destruct args; try (by destruct (Hargs o)); reflexivity.
Qed.

End Validation.

(** ** The tools one by one *)

Lemma parse_elems_strings (path : list PathElem) (i : nat) (l : list string) :
  parse_elems z_string path i (map JStr l) = inr l.
Proof.
  revert i. induction l as [|s l IH]; intros i; [done|].
  cbn [map parse_elems]. by rewrite IH.
Qed.

Lemma parse_site (o : gmap string JsValue) (s : string) :
  o !! "siteId" = Some (JStr s) ->
  parse GetSiteSchema (JObj o) = inr (Site.mk s) /\
  parse GetCollectionsSchema (JObj o) = inr (Site.mk s).
Proof.
  intros Hs. unfold_schemas.
  split; (apply fap_ok; [done|by apply field_string_ok]).
Qed.

Lemma parse_item_ref (o : gmap string JsValue) (c i : string) :
  o !! "collectionId" = Some (JStr c) ->
  o !! "itemId" = Some (JStr i) ->
  parse DeleteCollectionItemSchema (JObj o) = inr (ItemRef.mk c i).
Proof.
  intros Hc Hi. unfold_schemas.
  repeat (apply fap_ok; [|by apply field_string_ok]). done.
Qed.

Lemma parse_publish (o : gmap string JsValue) (c : string) (l : list string) :
  o !! "collectionId" = Some (JStr c) ->
  o !! "itemIds" = Some (JArr (map JStr l)) ->
  parse PublishCollectionItemsSchema (JObj o) = inr (Publish.mk c l).
Proof.
  intros Hc Hl. unfold_schemas.
  apply fap_ok; [apply fap_ok; [done|by apply field_string_ok]|].
  unfold field, z_array. rewrite Hl. apply parse_elems_strings.
Qed.

Lemma parse_items (o : gmap string JsValue) (c : string) :
  o !! "collectionId" = Some (JStr c) ->
  (omitted o "limit" \/ exists l, o !! "limit" = Some (JNum l)) ->
  (omitted o "offset" \/ exists f, o !! "offset" = Some (JNum f)) ->
  parse GetCollectionItemsSchema (JObj o)
    = inr (Items.mk c
             match arg o "limit" with JNum l => l | _ => 10 end
             match arg o "offset" with JNum f => f | _ => 0 end).
Proof.
  intros Hc Hl Hf. unfold_schemas.
  apply fap_ok; [apply fap_ok; [apply fap_ok; [done|by apply field_string_ok]|]|];
    unfold field, arg, omitted in *.
  - destruct Hl as [->|[l ->]]; reflexivity.
  - destruct Hf as [->|[f ->]]; reflexivity.
Qed.

Lemma parse_create_flags (o : gmap string JsValue) (p : Create.t) :
  parse CreateCollectionItemSchema (JObj o) = inr p ->
  Create.isDraft p = match arg o "isDraft" with JBool b => b | _ => false end /\
  Create.isArchived p = match arg o "isArchived" with JBool b => b | _ => false end.
Proof.
  unfold_schemas. intros H.
  apply fap_inr in H as (g6 & a6 & H & H6 & ->).
  apply fap_inr in H as (g5 & a5 & H & H5 & ->).
  apply fap_inr in H as (g4 & a4 & H & _ & ->).
  apply fap_inr in H as (g3 & a3 & H & _ & ->).
  apply fap_inr in H as (g2 & a2 & H & _ & ->).
  apply fap_inr in H as (g1 & a1 & H & _ & ->).
  injection H as <-. cbn [Create.isDraft Create.isArchived].
  unfold field, arg in *. split.
  - destruct (default JUndefined (o !! "isDraft")); simpl in H5;
      try discriminate H5; by injection H5.
  - destruct (default JUndefined (o !! "isArchived")); simpl in H6;
      try discriminate H6; by injection H6.
Qed.

Lemma parse_update_inr (o : gmap string JsValue) (p : Update.t) :
  parse UpdateCollectionItemSchema (JObj o) = inr p ->
  o !! "collectionId" = Some (JStr (Update.collectionId p)) /\
  o !! "itemId" = Some (JStr (Update.itemId p)) /\
  match Update.name p with
  | Some s => o !! "name" = Some (JStr s)
  | None => omitted o "name"
  end /\
  match Update.slug p with
  | Some s => o !! "slug" = Some (JStr s)
  | None => omitted o "slug"
  end /\
  match Update.fieldData p with
  | Some f => exists fd, o !! "fieldData" = Some (JObj fd) /\ f = delete "__proto__" fd
  | None => omitted o "fieldData"
  end.
Proof.
  unfold_schemas. intros H.
  apply fap_inr in H as (g7 & a7 & H & _ & ->).
  apply fap_inr in H as (g6 & a6 & H & _ & ->).
  apply fap_inr in H as (g5 & a5 & H & H5 & ->).
  apply fap_inr in H as (g4 & a4 & H & H4 & ->).
  apply fap_inr in H as (g3 & a3 & H & H3 & ->).
  apply fap_inr in H as (g2 & a2 & H & H2 & ->).
  apply fap_inr in H as (g1 & a1 & H & H1 & ->).
  injection H as <-. simpl.
  split; [by eapply field_string_inr|]. split; [by eapply field_string_inr|].
  split; [by eapply field_optional_string_inr|].
  split; [by eapply field_optional_string_inr|by eapply field_record_inr].
Qed.

Section Tools.

Variable WEBFLOW_API_TOKEN : string.
Variable fetch : string -> RequestInit -> string + Response.
Variable JSON_stringify : JsValue -> nat -> string.
Variable McpError_message : ErrorCode -> string -> string.

Local Abbreviation api := (webflowAPI WEBFLOW_API_TOKEN).
Local Abbreviation handler := (call_tool WEBFLOW_API_TOKEN fetch JSON_stringify McpError_message).

Ltac unfold_adapter :=
  unfold getSites, getSite, getCollections, getCollectionItems,
    createCollectionItem, updateCollectionItem, deleteCollectionItem,
    publishCollectionItems in *.

(** X13: when the response is a success and its body parses to the JSON
    value [v], the four get_ tools return exactly the pretty-printed [v];
    create, update and publish return it after their fixed success line
    (publish counts the validated item ids); delete returns only its
    success line with the validated item id and does not echo [v]. The
    value is never inspected or changed on the way. *)
Theorem success_returns_the_remote_json
    (n : string) (c : ToolCase) (args : JsValue)
    (req : Request) (response : Response) (v : JsValue) :
  switch_case n = Some c ->
  In req (requests (handler n args)) ->
  fetch (url req) (init req) = inr response ->
  ok response = true ->
  json response = inr v ->
  match c with
  | get_sites | get_site | get_collections | get_collection_items =>
      outcome (handler n args) = inr [mkContent "text" (JSON_stringify v 2)]
  | create_collection_item =>
      outcome (handler n args)
        = inr [mkContent "text"
                 ("âœ… Successfully created collection item!" ++ LF2
                    ++ JSON_stringify v 2)]
  | update_collection_item =>
      outcome (handler n args)
        = inr [mkContent "text"
                 ("âœ… Successfully updated collection item!" ++ LF2
                    ++ JSON_stringify v 2)]
  | delete_collection_item =>
      exists p, parse DeleteCollectionItemSchema args = inr p /\
        outcome (handler n args)
          = inr [mkContent "text"
                   ("âœ… Successfully deleted collection item " ++ ItemRef.itemId p)]
  | publish_collection_items =>
      exists p, parse PublishCollectionItemsSchema args = inr p /\
        outcome (handler n args)
          = inr [mkContent "text"
                   ("âœ… Successfully published "
                      ++ numToString (Z.of_nat (length (Publish.itemIds p)))
                      ++ " item(s)!" ++ LF2 ++ JSON_stringify v 2)]
  end.
Proof.
  intros Hc Hin Hf Hok Hj. unfold call_tool in *. rewrite Hc in *.
  destruct c; cbn [case_body] in *; unfold parse_or_throw in *;
    try match goal with
        | H : context [parse ?S args] |- _ =>
            destruct (parse S args) as [e|p] eqn:Hp; [destruct Hin|];
            rewrite bind_ret_l in *
        end;
    unfold_adapter; rewrite run_request in *;
    cbn [requests fst] in Hin; destruct Hin as [<-|[]];
    cbn [outcome snd]; unfold after_request; rewrite Hf, Hok, Hj;
    first [reflexivity | by exists p].
Qed.

(** X14: [get_site] and [get_collections] accept any string as siteId
    (the empty string included) and put it into the path as it is, with
    no encoding: the one request is a GET of /sites/<siteId>, respectively
    /sites/<siteId>/collections, without body. *)
Theorem site_requests (o : gmap string JsValue) (s : string) :
  o !! "siteId" = Some (JStr s) ->
  requests (handler "get_site" (JObj o))
    = [mkRequest ("https://api.webflow.com/v2/sites/" ++ s)
         (mkInit None None (Some (default_headers WEBFLOW_API_TOKEN)))] /\
  requests (handler "get_collections" (JObj o))
    = [mkRequest ("https://api.webflow.com/v2/sites/" ++ s ++ "/collections")
         (mkInit None None (Some (default_headers WEBFLOW_API_TOKEN)))].
Proof.
  intros Hs. destruct (parse_site o s Hs) as [H1 H2].
  split; unfold call_tool; eval_switch; cbn [case_body]; unfold parse_or_throw;
    rewrite ?H1, ?H2, bind_ret_l; unfold_adapter; by rewrite run_request.
Qed.

(** X15: [get_collection_items] puts the validated limit and offset into
    the query string as they are: for safe integers (the numbers a
    JavaScript number holds exactly and prints in plain decimal) the
    decimal numeral, with no lower or upper bound checked, so zero and
    negative numbers are sent as given; an omitted one is replaced by its
    default (10, 0) independently of the other. *)
Theorem items_request (o : gmap string JsValue) (c : string) :
  o !! "collectionId" = Some (JStr c) ->
  (omitted o "limit" \/ exists l, o !! "limit" = Some (JNum l) /\ safe_integer l) ->
  (omitted o "offset" \/ exists f, o !! "offset" = Some (JNum f) /\ safe_integer f) ->
  requests (handler "get_collection_items" (JObj o))
    = [mkRequest
         ("https://api.webflow.com/v2/collections/" ++ c ++ "/items?limit="
            ++ numToString match arg o "limit" with JNum l => l | _ => 10 end
            ++ "&offset="
            ++ numToString match arg o "offset" with JNum f => f | _ => 0 end)
         (mkInit None None (Some (default_headers WEBFLOW_API_TOKEN)))].
Proof.
  intros Hc Hl Hf.
  assert (parse GetCollectionItemsSchema (JObj o)
          = inr (Items.mk c
                   match arg o "limit" with JNum l => l | _ => 10 end
                   match arg o "offset" with JNum f => f | _ => 0 end)) as Hp.
  { apply parse_items; [done| |].
    - destruct Hl as [Hl|(l & Hl & _)]; [by left|right; by exists l].
    - destruct Hf as [Hf|(f & Hf & _)]; [by left|right; by exists f]. }
  unfold call_tool; eval_switch; cbn [case_body]; unfold parse_or_throw.
  rewrite Hp, bind_ret_l. unfold_adapter. by rewrite run_request.
Qed.

(** X16: [delete_collection_item] with string ids sends one DELETE of
    /collections/<collectionId>/items/<itemId> without body. Its result
    still depends on the body of the answer: the call succeeds, with a
    text naming the item id, only if [json()] can parse the body; the
    parsed value itself is dropped. *)
Theorem delete_request_and_result (o : gmap string JsValue) (c i : string) :
  o !! "collectionId" = Some (JStr c) ->
  o !! "itemId" = Some (JStr i) ->
  let req :=
    mkRequest ("https://api.webflow.com/v2/collections/" ++ c ++ "/items/" ++ i)
      (mkInit (Some "DELETE") None (Some (default_headers WEBFLOW_API_TOKEN))) in
  requests (handler "delete_collection_item" (JObj o)) = [req] /\
  forall response, fetch (url req) (init req) = inr response -> ok response = true ->
    outcome (handler "delete_collection_item" (JObj o))
      = match json response with
        | inr _ => inr [mkContent "text"
                          ("âœ… Successfully deleted collection item " ++ i)]
        | inl msg => inl (McpError InternalError
                            ("Error executing delete_collection_item: " ++ msg))
        end.
Proof.
  intros Hc Hi req. pose proof (parse_item_ref o c i Hc Hi) as Hp.
  unfold call_tool; eval_switch; cbn [case_body]; unfold parse_or_throw.
  rewrite Hp, bind_ret_l. unfold_adapter. rewrite run_request.
  split; [done|]. intros response Hf Hok. cbn [outcome snd]. unfold after_request.
  change (request_of api _ _) with req. rewrite Hf, Hok.
  by destruct (json response).
Qed.

(** X17: [publish_collection_items] accepts any array of strings as
    itemIds, the empty array included, and sends one POST of
    /collections/<collectionId>/items/publish whose body serialises the
    object {itemIds: [...]} with the ids in the given order; on success
    the text reports the number of ids given. *)
Theorem publish_request_and_result (o : gmap string JsValue) (c : string) (l : list string) :
  o !! "collectionId" = Some (JStr c) ->
  o !! "itemIds" = Some (JArr (map JStr l)) ->
  let req :=
    mkRequest ("https://api.webflow.com/v2/collections/" ++ c ++ "/items/publish")
      (mkInit (Some "POST")
         (Some (JSON_stringify (JObj {["itemIds" := JArr (map JStr l)]}) 0))
         (Some (default_headers WEBFLOW_API_TOKEN))) in
  requests (handler "publish_collection_items" (JObj o)) = [req] /\
  forall response v,
    fetch (url req) (init req) = inr response -> ok response = true ->
    json response = inr v ->
    outcome (handler "publish_collection_items" (JObj o))
      = inr [mkContent "text"
               ("âœ… Successfully published " ++ numToString (Z.of_nat (length l))
                  ++ " item(s)!" ++ LF2 ++ JSON_stringify v 2)].
Proof.
  intros Hc Hl req. pose proof (parse_publish o c l Hc Hl) as Hp.
  unfold call_tool; eval_switch; cbn [case_body]; unfold parse_or_throw.
  rewrite Hp, bind_ret_l. unfold_adapter. rewrite run_request.
  split; [done|]. intros response v Hf Hok Hj. cbn [outcome snd]. unfold after_request.
  change (request_of api _ _) with req. by rewrite Hf, Hok, Hj.
Qed.

End Tools.

(** ** Payloads of create and update *)

Lemma create_fieldData_lookup (p : Create.t) (k : string) :
  create_fieldData p !! k =
    match Create.fieldData p ≫= (.!! k) with
    | Some v => Some v
    | None =>
        (<["slug" := JStr (slug_or_default (Create.slug p) (Create.name p))]>
           (<["name" := JStr (Create.name p)]> (∅ : gmap string JsValue))) !! k
    end.
Proof.
  unfold create_fieldData, spread. destruct (Create.fieldData p) as [f|]; [|done].
  cbn [mbind option_bind]. destruct (f !! k) as [v|] eqn:E.
  - by apply lookup_union_Some_l.
  - by rewrite lookup_union_r.
Qed.

Lemma update_fieldData_lookup (p : Update.t) (k : string) :
  update_fieldData p !! k =
    match Update.fieldData p ≫= (.!! k) with
    | Some v => Some v
    | None =>
        set_if_truthy "slug" (Update.slug p)
          (set_if_truthy "name" (Update.name p) (∅ : gmap string JsValue)) !! k
    end.
Proof.
  unfold update_fieldData, spread. destruct (Update.fieldData p) as [f|]; [|done].
  cbn [mbind option_bind]. destruct (f !! k) as [v|] eqn:E.
  - by apply lookup_union_Some_l.
  - by rewrite lookup_union_r.
Qed.

(** X18: in [create_collection_item], when fieldData holds no slug of
    its own, the slug of the payload is the slug argument exactly as
    given (it is not lowercased or cleaned) if that is a non-empty
    string, and the slug derived from the name if the argument is
    omitted or is the empty string. *)
Theorem create_slug_rule (o : gmap string JsValue) (p : Create.t) :
  parse CreateCollectionItemSchema (JObj o) = inr p ->
  (forall fd, o !! "fieldData" = Some (JObj fd) -> fd !! "slug" = None) ->
  o !! "name" = Some (JStr (Create.name p)) /\
  create_fieldData p !! "slug" =
    Some (JStr match arg o "slug" with
               | JStr s => if String.eqb s "" then slugify (Create.name p) else s
               | _ => slugify (Create.name p)
               end).
Proof.
  intros Hp Hfd. destruct (parse_create_inr o p Hp) as (_ & Hn & Hs & Hf).
  split; [done|]. rewrite create_fieldData_lookup.
  assert (Create.fieldData p ≫= (.!! "slug") = None) as ->.
  { destruct (Create.fieldData p) as [f|]; [|done].
    destruct Hf as (fd & Hofd & ->). cbn [mbind option_bind].
    rewrite lookup_delete_ne by done. by apply Hfd. }
  rewrite lookup_insert_eq. do 2 f_equal. unfold slug_or_default, arg.
  destruct (Create.slug p) as [s|].
  - rewrite Hs. cbn [default truthy id]. by destruct (String.eqb s "").
  - unfold omitted in Hs. by rewrite Hs.
Qed.

(** X20: every key of the caller's fieldData (other than "__proto__")
    reaches the payload of [create_collection_item] with the caller's
    value, and the payload's fieldData has no keys besides the caller's,
    name and slug; when fieldData holds no name, the name is the
    top-level one. *)
Theorem create_fieldData_passes_through
    (o fd : gmap string JsValue) (p : Create.t) :
  parse CreateCollectionItemSchema (JObj o) = inr p ->
  o !! "fieldData" = Some (JObj fd) ->
  (forall k v, k <> "__proto__" -> fd !! k = Some v ->
     create_fieldData p !! k = Some v) /\
  dom (create_fieldData p) = dom fd ∖ {["__proto__"]} ∪ {["name"; "slug"]} /\
  (fd !! "name" = None -> create_fieldData p !! "name" = Some (JStr (Create.name p))).
Proof.
  intros Hp Hofd. destruct (parse_create_inr o p Hp) as (_ & _ & _ & Hf).
  assert (Create.fieldData p = Some (delete "__proto__" fd)) as Ef.
  { destruct (Create.fieldData p) as [f|].
    - destruct Hf as (fd' & Hofd' & ->). congruence.
    - unfold omitted in Hf. by rewrite Hofd in Hf. }
  split; [|split].
  - intros k v Hk Hv. rewrite create_fieldData_lookup, Ef. cbn [mbind option_bind].
    by rewrite lookup_delete_ne, Hv.
  - unfold create_fieldData, spread. rewrite Ef.
    rewrite dom_union_L, dom_delete_L, !dom_insert_L, dom_empty_L.
    apply set_eq. intros x. set_unfold. tauto.
  - intros Hn. rewrite create_fieldData_lookup, Ef. cbn [mbind option_bind].
    rewrite lookup_delete_ne, Hn by done.
    rewrite lookup_insert_ne by done. by rewrite lookup_insert_eq.
Qed.

Section Payloads.

Variable WEBFLOW_API_TOKEN : string.
Variable fetch : string -> RequestInit -> string + Response.
Variable JSON_stringify : JsValue -> nat -> string.
Variable McpError_message : ErrorCode -> string -> string.

Local Abbreviation handler := (call_tool WEBFLOW_API_TOKEN fetch JSON_stringify McpError_message).

(** X19: the payload of [create_collection_item] always has exactly the
    keys fieldData, isDraft and isArchived, and its fieldData always has
    a name and a slug; isDraft and isArchived are the booleans given, and
    false when omitted (unlike update, which leaves them out). The body
    of the POST serialises this payload. *)
Theorem create_payload_is_complete (o : gmap string JsValue) (p : Create.t) :
  parse CreateCollectionItemSchema (JObj o) = inr p ->
  dom (itemData p) = {["fieldData"; "isDraft"; "isArchived"]} /\
  itemData p !! "isDraft"
    = Some (JBool match arg o "isDraft" with JBool b => b | _ => false end) /\
  itemData p !! "isArchived"
    = Some (JBool match arg o "isArchived" with JBool b => b | _ => false end) /\
  is_Some (create_fieldData p !! "name") /\
  is_Some (create_fieldData p !! "slug") /\
  requests (handler "create_collection_item" (JObj o)) =
    [mkRequest
       ("https://api.webflow.com/v2/collections/" ++ Create.collectionId p ++ "/items")
       (mkInit (Some "POST") (Some (JSON_stringify (JObj (itemData p)) 0))
          (Some (default_headers WEBFLOW_API_TOKEN)))].
Proof.
  intros Hp. destruct (parse_create_flags o p Hp) as [Hd Ha].
  split; [|split; [|split; [|split; [|split]]]].
  - unfold itemData. rewrite !dom_insert_L, dom_empty_L.
    apply set_eq. intros x. set_unfold. tauto.
  - unfold itemData. rewrite <- Hd. by simplify_map_eq.
  - unfold itemData. rewrite <- Ha. by simplify_map_eq.
  - rewrite create_fieldData_lookup.
    destruct (Create.fieldData p ≫= (.!! "name")); [by eexists|].
    rewrite lookup_insert_ne by done. rewrite lookup_insert_eq. by eexists.
  - rewrite create_fieldData_lookup.
    destruct (Create.fieldData p ≫= (.!! "slug")); [by eexists|].
    rewrite lookup_insert_eq. by eexists.
  - by apply create_request.
Qed.

(** X21: in [update_collection_item], a fieldData argument (even the
    empty object) always produces a fieldData key in the body; there the
    caller's keys win over the top-level name and slug, keys other than
    name and slug come from the caller only, and a truthy top-level name
    fills in when the caller's fieldData has no name. The body of the
    PATCH serialises this update object. *)
Theorem update_fieldData_merge (o fd : gmap string JsValue) (p : Update.t) :
  parse UpdateCollectionItemSchema (JObj o) = inr p ->
  o !! "fieldData" = Some (JObj fd) ->
  updateData p !! "fieldData" = Some (JObj (update_fieldData p)) /\
  (forall k v, k <> "__proto__" -> fd !! k = Some v ->
     update_fieldData p !! k = Some v) /\
  (forall k, k <> "name" -> k <> "slug" ->
     update_fieldData p !! k = delete "__proto__" fd !! k) /\
  (fd !! "name" = None ->
     update_fieldData p !! "name"
       = if truthy (Update.name p) then JStr <$> Update.name p else None) /\
  requests (handler "update_collection_item" (JObj o)) =
    [mkRequest
       ("https://api.webflow.com/v2/collections/" ++ Update.collectionId p
          ++ "/items/" ++ Update.itemId p)
       (mkInit (Some "PATCH") (Some (JSON_stringify (JObj (updateData p)) 0))
          (Some (default_headers WEBFLOW_API_TOKEN)))].
Proof.
  intros Hp Hofd. destruct (parse_update_inr o p Hp) as (_ & _ & _ & _ & Hf).
  assert (Update.fieldData p = Some (delete "__proto__" fd)) as Ef.
  { destruct (Update.fieldData p) as [f|].
    - destruct Hf as (fd' & Hofd' & ->). congruence.
    - unfold omitted in Hf. by rewrite Hofd in Hf. }
  split; [|split; [|split; [|split]]].
  - destruct (updateData_lookup p) as (_ & _ & ->). rewrite Ef.
    by rewrite orb_true_r.
  - intros k v Hk Hv. rewrite update_fieldData_lookup, Ef. cbn [mbind option_bind].
    by rewrite lookup_delete_ne, Hv.
  - intros k Hk1 Hk2. rewrite update_fieldData_lookup, Ef. cbn [mbind option_bind].
    destruct (delete "__proto__" fd !! k); [done|].
    unfold set_if_truthy.
    destruct (Update.slug p), (Update.name p);
      repeat match goal with |- context [truthy ?x] => destruct (truthy x) end;
      by simplify_map_eq.
  - intros Hn. rewrite update_fieldData_lookup, Ef. cbn [mbind option_bind].
    rewrite lookup_delete_ne, Hn by done. unfold set_if_truthy.
    destruct (Update.slug p), (Update.name p);
      repeat match goal with |- context [truthy ?x] => destruct (truthy x) end;
      by simplify_map_eq.
  - by apply update_request.
Qed.

End Payloads.

(** ** More concrete calls *)

(** X5 at [get_sites] against a remote side that refuses the connection. *)
Lemma network_failure_witness :
  call_tool "secret" (sample_fetch_reject "connect ECONNREFUSED")
    sample_stringify sample_message "get_sites" (JObj ∅)
  = ([mkRequest "https://api.webflow.com/v2/sites"
        (mkInit None None (Some (default_headers "secret")))],
     inl (McpError InternalError "Error executing get_sites: connect ECONNREFUSED")).
Proof.
  refine (network_failure_is_internal_error "secret"
            (sample_fetch_reject "connect ECONNREFUSED") sample_stringify sample_message
            "get_sites" (JObj ∅)
            (mkRequest "https://api.webflow.com/v2/sites"
               (mkInit None None (Some (default_headers "secret"))))
            "connect ECONNREFUSED" _ _).
  - left. reflexivity.
  - reflexivity.
Defined.

(** X6 at a delete answered with 204 and an empty body. *)
Lemma unreadable_body_witness :
  call_tool "secret" (sample_fetch_no_json 204 "" "Unexpected end of JSON input")
    sample_stringify sample_message "delete_collection_item"
    (JObj (obj [("collectionId", JStr "c1"); ("itemId", JStr "i1")]))
  = ([mkRequest "https://api.webflow.com/v2/collections/c1/items/i1"
        (mkInit (Some "DELETE") None (Some (default_headers "secret")))],
     inl (McpError InternalError
            "Error executing delete_collection_item: Unexpected end of JSON input")).
Proof.
  refine (unreadable_body_is_internal_error "secret"
            (sample_fetch_no_json 204 "" "Unexpected end of JSON input")
            sample_stringify sample_message "delete_collection_item"
            (JObj (obj [("collectionId", JStr "c1"); ("itemId", JStr "i1")]))
            (mkRequest "https://api.webflow.com/v2/collections/c1/items/i1"
               (mkInit (Some "DELETE") None (Some (default_headers "secret"))))
            (mkResponse 204 "" (inl "Unexpected end of JSON input"))
            "Unexpected end of JSON input" _ _ _ _).
  - left. reflexivity.
  - reflexivity.
  - reflexivity.
  - reflexivity.
Defined.

(** X7 at an update of item i1. *)
Lemma request_table_witness :
  exists c rest,
    switch_case "update_collection_item" = Some c /\
    method (mkInit (Some "PATCH") (Some "{}") (Some (default_headers "secret")))
      = tool_method c /\
    bool_decide (is_Some (Some "{}")) = sends_body c /\
    "https://api.webflow.com/v2/collections/c1/items/i1"
      = "https://api.webflow.com/v2/" ++ rest.
Proof.
  apply (request_follows_operations_table "secret" (sample_fetch 200 "{}")
           sample_stringify sample_message "update_collection_item"
           (JObj (obj [("collectionId", JStr "c1"); ("itemId", JStr "i1")]))
           (mkRequest "https://api.webflow.com/v2/collections/c1/items/i1"
              (mkInit (Some "PATCH") (Some "{}") (Some (default_headers "secret"))))).
  left. reflexivity.
Defined.

(** X8 at the create tool with {collectionId: "c1", name: "Foo"}. *)
Lemma catalogue_shape_witness :
  conforms (inputSchema (catalogue_entry 4))
    (obj [("collectionId", JStr "c1"); ("name", JStr "Foo")]) = true <->
  schema_errors create_collection_item
    (JObj (obj [("collectionId", JStr "c1"); ("name", JStr "Foo")])) = None.
Proof.
  apply (catalogue_shape_is_validated_shape (catalogue_entry 4) create_collection_item).
  - do 4 right. left. reflexivity.
  - reflexivity.
Defined.

(** X9 at [get_site] with an extra key. *)
Lemma unlisted_arguments_witness :
  sample_call 200 "{}" "get_site" (JObj (obj [("siteId", JStr "s1")]))
  = sample_call 200 "{}" "get_site"
      (JObj (obj [("siteId", JStr "s1"); ("verbose", JBool true)])).
Proof.
  apply (unlisted_arguments_are_ignored "secret" (sample_fetch 200 "{}")
           sample_stringify sample_message (catalogue_entry 1)).
  - right. left. reflexivity.
  - intros k Hk. cbn in Hk. destruct Hk as [<-|[]]. reflexivity.
Defined.

(** X10 at the limit of [get_collection_items]. *)
Lemma documented_default_witness :
  sample_call 200 "{}" "get_collection_items"
    (JObj (<["limit" := JNum 10]> (obj [("collectionId", JStr "c1")])))
  = sample_call 200 "{}" "get_collection_items"
      (JObj (delete "limit" (obj [("collectionId", JStr "c1")]))).
Proof.
  apply (documented_default_equals_omission "secret" (sample_fetch 200 "{}")
           sample_stringify sample_message (catalogue_entry 3)
           (mkProp "limit" "number" "Number of items to retrieve (default: 10)"
              (Some (JNum 10)) None)
           (JNum 10)).
  - do 3 right. left. reflexivity.
  - right. left. reflexivity.
  - reflexivity.
Defined.

(** X11 at the create tool called without a name. *)
Lemma missing_required_witness :
  exists errors,
    In (mkIssue [PKey "name"] "Required") errors /\
    sample_call 200 "{}" "create_collection_item"
      (JObj (obj [("collectionId", JStr "c1")]))
      = ([], inl (McpError InvalidParams
                    ("Invalid parameters: " ++ join ", " (map format_issue errors)))) /\
    includes ("Invalid parameters: " ++ join ", " (map format_issue errors))
             "name: Required".
Proof.
  apply (missing_required_argument_is_named "secret" (sample_fetch 200 "{}")
           sample_stringify sample_message (catalogue_entry 4) "name").
  - do 4 right. left. reflexivity.
  - right. left. reflexivity.
  - reflexivity.
Defined.

(** X12 at [get_site] called without arguments. *)
Lemma non_object_arguments_witness :
  sample_call 200 "{}" "get_site" JUndefined
  = ([], inl (McpError InvalidParams "Invalid parameters: : Required")).
Proof.
  apply (non_object_arguments_are_rejected "secret" (sample_fetch 200 "{}")
           sample_stringify sample_message "get_site" get_site JUndefined).
  - reflexivity.
  - intros H. discriminate H.
  - intros o H. discriminate H.
Defined.

(** X13 at [get_sites] answered with 200 and an empty object. *)
Lemma success_witness :
  outcome (sample_call 200 "{}" "get_sites" (JObj ∅)) = inr [mkContent "text" "{}"].
Proof.
  apply (success_returns_the_remote_json "secret" (sample_fetch 200 "{}")
           sample_stringify sample_message "get_sites" get_sites (JObj ∅)
           (mkRequest "https://api.webflow.com/v2/sites"
              (mkInit None None (Some (default_headers "secret"))))
           (mkResponse 200 "{}" (inr (JObj ∅))) (JObj ∅)).
  - reflexivity.
  - left. reflexivity.
  - reflexivity.
  - reflexivity.
  - reflexivity.
Defined.

(** X14 at siteId "s1". *)
Lemma site_requests_witness :
  requests (sample_call 200 "{}" "get_site" (JObj (obj [("siteId", JStr "s1")])))
    = [mkRequest "https://api.webflow.com/v2/sites/s1"
         (mkInit None None (Some (default_headers "secret")))] /\
  requests (sample_call 200 "{}" "get_collections" (JObj (obj [("siteId", JStr "s1")])))
    = [mkRequest "https://api.webflow.com/v2/sites/s1/collections"
         (mkInit None None (Some (default_headers "secret")))].
Proof.
  apply (site_requests "secret" (sample_fetch 200 "{}") sample_stringify sample_message
           (obj [("siteId", JStr "s1")]) "s1").
  reflexivity.
Defined.

(** X15 at a negative limit and an omitted offset. *)
Lemma items_request_witness :
  requests (sample_call 200 "{}" "get_collection_items"
              (JObj (obj [("collectionId", JStr "c1"); ("limit", JNum (-5))])))
    = [mkRequest "https://api.webflow.com/v2/collections/c1/items?limit=-5&offset=0"
         (mkInit None None (Some (default_headers "secret")))].
Proof.
  apply (items_request "secret" (sample_fetch 200 "{}") sample_stringify sample_message
           (obj [("collectionId", JStr "c1"); ("limit", JNum (-5))]) "c1").
  - reflexivity.
  - right. exists (-5). split; [reflexivity|]. unfold safe_integer. lia.
  - left. reflexivity.
Defined.

(** X16 at a delete answered with 200 and a JSON body. *)
Lemma delete_witness :
  outcome (sample_call 200 "{}" "delete_collection_item"
             (JObj (obj [("collectionId", JStr "c1"); ("itemId", JStr "i1")])))
    = inr [mkContent "text" "âœ… Successfully deleted collection item i1"].
Proof.
  pose proof (delete_request_and_result "secret" (sample_fetch 200 "{}")
                sample_stringify sample_message
                (obj [("collectionId", JStr "c1"); ("itemId", JStr "i1")]) "c1" "i1"
                eq_refl eq_refl) as H.
  cbv zeta in H. destruct H as [_ H].
  exact (H (mkResponse 200 "{}" (inr (JObj ∅))) eq_refl eq_refl).
Defined.

(** X17 at an empty list of item ids. *)
Lemma publish_witness :
  outcome (sample_call 200 "{}" "publish_collection_items"
             (JObj (obj [("collectionId", JStr "c1"); ("itemIds", JArr [])])))
    = inr [mkContent "text" ("âœ… Successfully published 0 item(s)!" ++ LF2 ++ "{}")].
Proof.
  pose proof (publish_request_and_result "secret" (sample_fetch 200 "{}")
                sample_stringify sample_message
                (obj [("collectionId", JStr "c1"); ("itemIds", JArr [])]) "c1" []
                eq_refl eq_refl) as H.
  cbv zeta in H. destruct H as [_ H].
  exact (H (mkResponse 200 "{}" (inr (JObj ∅))) (JObj ∅) eq_refl eq_refl eq_refl).
Defined.

(** X18 at an explicit slug with capitals and a space. *)
Lemma create_slug_rule_witness :
  create_fieldData (Create.mk "c1" "Foo" (Some "My Slug") None false false) !! "slug"
    = Some (JStr "My Slug").
Proof.
  refine (proj2 (create_slug_rule
                   (obj [("collectionId", JStr "c1"); ("name", JStr "Foo");
                         ("slug", JStr "My Slug")])
                   (Create.mk "c1" "Foo" (Some "My Slug") None false false) _ _)).
  - reflexivity.
  - intros fd H. vm_compute in H. discriminate H.
Defined.

(** X19 at {collectionId: "c1", name: "Foo"}. *)
Lemma create_payload_witness :
  itemData (Create.mk "c1" "Foo" None None false false) !! "isDraft"
    = Some (JBool false).
Proof.
  refine (proj1 (proj2 (create_payload_is_complete "secret" (sample_fetch 200 "{}")
                          sample_stringify sample_message
                          (obj [("collectionId", JStr "c1"); ("name", JStr "Foo")])
                          (Create.mk "c1" "Foo" None None false false) _))).
  reflexivity.
Defined.

(** X20 at fieldData {color: "red"}. *)
Lemma create_passthrough_witness :
  create_fieldData
    (Create.mk "c1" "Foo" None (Some (obj [("color", JStr "red")])) false false)
    !! "color" = Some (JStr "red").
Proof.
  refine (proj1 (create_fieldData_passes_through
                   (obj [("collectionId", JStr "c1"); ("name", JStr "Foo");
                         ("fieldData", JObj (obj [("color", JStr "red")]))])
                   (obj [("color", JStr "red")])
                   (Create.mk "c1" "Foo" None (Some (obj [("color", JStr "red")]))
                      false false) _ _) "color" (JStr "red") _ _).
  - reflexivity.
  - reflexivity.
  - intros H. discriminate H.
  - reflexivity.
Defined.

(** X21 at an update with a new name and an empty fieldData object. *)
Lemma update_merge_witness :
  updateData (Update.mk "c1" "i1" (Some "New") None (Some ∅) None None) !! "fieldData"
    = Some (JObj (update_fieldData
                    (Update.mk "c1" "i1" (Some "New") None (Some ∅) None None))).
Proof.
  refine (proj1 (update_fieldData_merge "secret" (sample_fetch 200 "{}")
                   sample_stringify sample_message
                   (obj [("collectionId", JStr "c1"); ("itemId", JStr "i1");
                         ("name", JStr "New"); ("fieldData", JObj ∅)])
                   ∅
                   (Update.mk "c1" "i1" (Some "New") None (Some ∅) None None) _ _)).
  - reflexivity.
  - reflexivity.
Defined.

(** X2 at the name "Hello World!". *)
Lemma slugify_length_witness :
  ascii_only "Hello World!" /\
  (strlen (slugify "Hello World!") <= strlen "Hello World!")%nat.
Proof.
  assert (ascii_only "Hello World!") as Ha.
  { unfold ascii_only. cbn [list_ascii_of_string].
    repeat (constructor; [apply Nat.ltb_lt; reflexivity|]). constructor. }
  split; [exact Ha|].
  exact (proj2 (proj2 (slugify_idempotent_short_nonempty "Hello World!")) Ha).
Defined.
